(** * The authentication controller of podlove_backend

    A shallow embedding of [controllers/authController.ts]: the Express
    handlers [register], [activate], [login], [signInWithGoogle],
    [resetPassword], [resendOTP] and [changePassword], over an explicit
    model of the two Mongoose collections they read and write.

    A handler is a function from the state of the world before the request
    to the outcome of the request and the state after it.  Whatever a
    handler reads from outside its arguments (the clock, the OTP generator,
    the process environment, and whether a database call is rejected) is
    gathered in a per-request environment [Env]. *)

From Stdlib Require Import String List ZArith Bool Lia.
Import ListNotations.

Open Scope string_scope.
Open Scope list_scope.
Open Scope Z_scope.

(** ** HTTP vocabulary *)

(** The members of [StatusCodes] (http-status-codes) the controller uses. *)
Inductive StatusCode : Type :=
| OK | CREATED | BAD_REQUEST | UNAUTHORIZED | FORBIDDEN
| NOT_FOUND | CONFLICT | INTERNAL_SERVER_ERROR.

Definition statusNumber (s : StatusCode) : Z :=
  match s with
  | OK => 200 | CREATED => 201 | BAD_REQUEST => 400 | UNAUTHORIZED => 401
  | FORBIDDEN => 403 | NOT_FOUND => 404 | CONFLICT => 409
  | INTERNAL_SERVER_ERROR => 500
  end.

(** The database calls of the controller; a request's environment says,
    for each of them, whether the promise is rejected. *)
Inductive Op : Type :=
| AuthFindOne | AuthFindById | AuthSave | AuthCreate | UserCreate | UserFindOne.

(** What a handler can pass to [next] or throw: an error built with
    [createError(status, message)], a rejected database call, the error
    bcrypt raises on a missing argument, or a JavaScript [TypeError]. *)
Inductive Error : Type :=
| HttpError (status : StatusCode) (message : string)
| StoreError (op : Op)
| BcryptError (message : string)
| TypeError (message : string).

Definition createError (status : StatusCode) (message : string) : Error :=
  HttpError status message.

(** Modelled from the spec: the error-forwarding middleware that receives
    [next(error)] is not in src/.  Section 7 of the spec gives the taxonomy:
    an error created with a status keeps it, anything else (an unexpected
    store or library failure) is an internal server error. *)
Definition errorStatus (e : Error) : StatusCode :=
  match e with
  | HttpError status _ => status
  | StoreError _ | BcryptError _ | TypeError _ => INTERNAL_SERVER_ERROR
  end.

(** ** Data model *)

(** Modelled from the spec: the Mongoose schema of [@models/authModel] is not
    in src/.  The fields are the ones the controller reads and writes and the
    spec's section 3 lists; a field that may be absent is an [option]. *)
Module Auth.

Record t : Type := mk {
  _id : nat;
  email : string;
  password : option string;
  googleId : option string;
  isVerified : bool;
  isBlocked : bool;
  verificationOTP : option string;
  verificationOTPExpiredAt : option Z;
  recoveryOTP : option string;
  recoveryOTPExpiredAt : option Z;
}.

(** Field assignments. *)
Definition set_password (v : option string) (a : t) : t :=
  mk (_id a) (email a) v (googleId a) (isVerified a) (isBlocked a)
     (verificationOTP a) (verificationOTPExpiredAt a)
     (recoveryOTP a) (recoveryOTPExpiredAt a).

Definition set_isVerified (v : bool) (a : t) : t :=
  mk (_id a) (email a) (password a) (googleId a) v (isBlocked a)
     (verificationOTP a) (verificationOTPExpiredAt a)
     (recoveryOTP a) (recoveryOTPExpiredAt a).

Definition set_verificationOTP (v : option string) (a : t) : t :=
  mk (_id a) (email a) (password a) (googleId a) (isVerified a) (isBlocked a)
     v (verificationOTPExpiredAt a)
     (recoveryOTP a) (recoveryOTPExpiredAt a).

Definition set_verificationOTPExpiredAt (v : option Z) (a : t) : t :=
  mk (_id a) (email a) (password a) (googleId a) (isVerified a) (isBlocked a)
     (verificationOTP a) v
     (recoveryOTP a) (recoveryOTPExpiredAt a).

Definition set_recoveryOTP (v : option string) (a : t) : t :=
  mk (_id a) (email a) (password a) (googleId a) (isVerified a) (isBlocked a)
     (verificationOTP a) (verificationOTPExpiredAt a)
     v (recoveryOTPExpiredAt a).

Definition set_recoveryOTPExpiredAt (v : option Z) (a : t) : t :=
  mk (_id a) (email a) (password a) (googleId a) (isVerified a) (isBlocked a)
     (verificationOTP a) (verificationOTPExpiredAt a)
     (recoveryOTP a) v.

End Auth.

(** Modelled from the spec: the schema of [@models/userModel] is not in src/
    either. *)
Module User.

Record t : Type := mk {
  _id : nat;
  auth : nat;
  name : string;
  phoneNumber : option string;
  avatar : option string;
}.

End User.

(** A Mongoose document in the handler's memory: the field values, and the
    paths assigned since it was loaded.  [save] writes the modified paths
    only, so a path that was not assigned (or not selected by the query)
    keeps its stored value. *)
Inductive Path : Type :=
| path_password | path_isVerified
| path_verificationOTP | path_verificationOTPExpiredAt
| path_recoveryOTP | path_recoveryOTPExpiredAt.

Record Doc : Type := mkDoc {
  fields : Auth.t;
  modified : list Path;
}.

Definition loaded (a : Auth.t) : Doc := mkDoc a [].

Definition assign (p : Path) (f : Auth.t -> Auth.t) (d : Doc) : Doc :=
  mkDoc (f (fields d)) (p :: modified d).

(** [copy_path p src dst] is [dst] with the value of path [p] taken from
    [src]. *)
Definition copy_path (p : Path) (src dst : Auth.t) : Auth.t :=
  match p with
  | path_password => Auth.set_password (Auth.password src) dst
  | path_isVerified => Auth.set_isVerified (Auth.isVerified src) dst
  | path_verificationOTP => Auth.set_verificationOTP (Auth.verificationOTP src) dst
  | path_verificationOTPExpiredAt =>
      Auth.set_verificationOTPExpiredAt (Auth.verificationOTPExpiredAt src) dst
  | path_recoveryOTP => Auth.set_recoveryOTP (Auth.recoveryOTP src) dst
  | path_recoveryOTPExpiredAt =>
      Auth.set_recoveryOTPExpiredAt (Auth.recoveryOTPExpiredAt src) dst
  end.

Definition persist (d : Doc) (stored : Auth.t) : Auth.t :=
  fold_right (fun p acc => copy_path p (fields d) acc) stored (modified d).

(** A message handed to the notification sink. *)
Inductive Message : Type :=
| Email (to : string) (otp : string)
| SMS (to : option string) (otp : string).

(** The world a request runs in: the two collections, in insertion order,
    and the messages sent so far. *)
Record World : Type := mkWorld {
  auths : list Auth.t;
  users : list User.t;
  outbox : list Message;
}.

Definition set_auths (l : list Auth.t) (w : World) : World :=
  mkWorld l (users w) (outbox w).

Definition set_users (l : list User.t) (w : World) : World :=
  mkWorld (auths w) l (outbox w).

(** ** The environment of one request *)

(** Each handler reads the clock once and calls [generateOTP] at most once,
    so one reading of each per request is exact.  [bcrypt.hash] draws a
    random salt; ObjectIds are generated by the driver. *)
Record Env : Type := mkEnv {
  now : Z;                                (* Date.now(), in milliseconds *)
  generateOTP : string;                   (* the value generateOTP() returns *)
  salt : string;                          (* the salt bcrypt.hash draws *)
  newAuthId : nat;                        (* the ObjectId of a created Auth *)
  newUserId : nat;                        (* the ObjectId of a created User *)
  JWT_ACCESS_SECRET : option string;      (* process.env.JWT_ACCESS_SECRET *)
  JWT_REFRESH_SECRET : option string;     (* process.env.JWT_REFRESH_SECRET *)
  fails : Op -> bool;                     (* which database calls are rejected *)
}.

(** The library functions the controller calls and whose results it only
    stores, compares or returns. *)
Class Libraries : Type := {
  bcrypt_hash : string -> string -> string;      (* salt, data *)
  bcrypt_matches : string -> string -> bool;     (* data, hash *)
  generateToken : nat -> string -> string -> string; (* id, secret, lifetime *)
}.

(** [bcrypt.compare(data, hash)]: the promise is rejected when an argument
    is missing; otherwise it resolves to whether [data] matches [hash]. *)
Definition bcrypt_compare `{Libraries} (data : string) (hash : option string)
  : Error + bool :=
  match hash with
  | None => inl (BcryptError "data and hash arguments required")
  | Some h => inr (bcrypt_matches data h)
  end.

(** JavaScript truthiness of the values the handlers test with [!]. *)
Definition truthy (s : string) : bool := negb (s =? "")%string.

Definition truthy_opt (s : option string) : bool :=
  match s with
  | None => false
  | Some s => truthy s
  end.

(** ** Responses and outcomes *)

Record PopulatedUser : Type := mkPopulated {
  user : User.t;
  authEmail : option string;   (* populate({ path: "auth", select: "email" }) *)
}.

Inductive Value : Type :=
| VBool (b : bool)
| VString (s : string)
| VOptString (s : option string)
| VAuth (a : Auth.t)
| VUser (u : option PopulatedUser).

Record Json : Type := mkJson {
  success : bool;
  message : string;
  data : list (string * Value);
}.

(** How a handler ends: it sends a response, forwards an error to [next],
    its promise is rejected by an exception nothing catches, or it returns
    without doing either. *)
Inductive Outcome : Type :=
| Responded (status : StatusCode) (body : Json)
| Next (error : Error)
| Rejected (error : Error)
| NoResponse.

Definition Handler : Type := World -> Outcome * World.

(** An awaited call wrapped in [to]: the pair [[error, value]] and the world
    after the call. *)
Definition Call (A : Type) : Type := World -> (Error + A) * World.

Definition respond (status : StatusCode) (success : bool) (message : string)
           (data : list (string * Value)) : Handler :=
  fun w => (Responded status (mkJson success message data), w).

Definition next (error : Error) : Handler :=
  fun w => (Next error, w).

(** [[error, x] = await to(call); if (error) return next(error); k] *)
Definition to_or_next {A : Type} (call : Call A) (k : A -> Handler) : Handler :=
  fun w =>
    match call w with
    | (inl error, w') => (Next error, w')
    | (inr x, w') => k x w'
    end.

(** [x = await call; k], with no handler around it. *)
Definition await {A : Type} (call : Call A) (k : A -> Handler) : Handler :=
  fun w =>
    match call w with
    | (inl error, w') => (Rejected error, w')
    | (inr x, w') => k x w'
    end.

Notation "x <~ call ;; k" := (to_or_next call (fun x => k))
  (at level 61, call at next level, right associativity).

Notation "x <! call ;; k" := (await call (fun x => k))
  (at level 61, call at next level, right associativity).

Definition resolved {A : Type} (r : Error + A) : Call A := fun w => (r, w).

(** ** The collections *)

Definition by_email (e : string) (a : Auth.t) : bool := (Auth.email a =? e)%string.

Definition by_googleId (g : string) (a : Auth.t) : bool :=
  match Auth.googleId a with
  | Some g' => (g' =? g)%string
  | None => false
  end.

Definition by_id (i : nat) (a : Auth.t) : bool := (Auth._id a =? i)%nat.

Definition by_auth (i : nat) (u : User.t) : bool := (User.auth u =? i)%nat.

(** [Auth.findOne(filter)]: the first matching document, or null. *)
Definition Auth_findOne (env : Env) (filter : Auth.t -> bool) : Call (option Doc) :=
  fun w =>
    if fails env AuthFindOne then (inl (StoreError AuthFindOne), w)
    else (inr (option_map loaded (find filter (auths w))), w).

(** [Auth.findOne(filter).select("-password")]. *)
Definition Auth_findOne_without_password (env : Env) (filter : Auth.t -> bool)
  : Call (option Doc) :=
  fun w =>
    if fails env AuthFindOne then (inl (StoreError AuthFindOne), w)
    else (inr (option_map (fun a => loaded (Auth.set_password None a))
                          (find filter (auths w))), w).

(** [Auth.findById(id)]. *)
Definition Auth_findById (env : Env) (i : nat) : Call (option Doc) :=
  fun w =>
    if fails env AuthFindById then (inl (StoreError AuthFindById), w)
    else (inr (option_map loaded (find (by_id i) (auths w))), w).

(** [auth.save()]: the modified paths are written to the stored document
    with the same [_id]. *)
Definition save_into (d : Doc) (stored : Auth.t) : Auth.t :=
  if (Auth._id stored =? Auth._id (fields d))%nat then persist d stored else stored.

Definition Auth_save (env : Env) (d : Doc) : Call unit :=
  fun w =>
    if fails env AuthSave then (inl (StoreError AuthSave), w)
    else (inr tt, set_auths (map (save_into d) (auths w)) w).

(** [Auth.create(doc)] and [User.create(doc)] outside a transaction: the
    document is in the collection as soon as the call resolves. *)
Definition Auth_create (env : Env) (a : Auth.t) : Call Auth.t :=
  fun w =>
    if fails env AuthCreate then (inl (StoreError AuthCreate), w)
    else (inr a, set_auths (auths w ++ [a]) w).

Definition User_create (env : Env) (u : User.t) : Call User.t :=
  fun w =>
    if fails env UserCreate then (inl (StoreError UserCreate), w)
    else (inr u, set_users (users w ++ [u]) w).

(** [User.findOne({ auth: id })]. *)
Definition User_findOne (env : Env) (i : nat) : Call (option User.t) :=
  fun w =>
    if fails env UserFindOne then (inl (StoreError UserFindOne), w)
    else (inr (find (by_auth i) (users w)), w).

(** [User.findOne({ auth: id }).populate({ path: "auth", select: "email" })]. *)
Definition populate (w : World) (u : User.t) : PopulatedUser :=
  mkPopulated u (option_map Auth.email (find (by_id (User.auth u)) (auths w))).

Definition User_findOne_populated (env : Env) (i : nat)
  : Call (option PopulatedUser) :=
  fun w =>
    if fails env UserFindOne then (inl (StoreError UserFindOne), w)
    else (inr (option_map (populate w) (find (by_auth i) (users w))), w).

(** The notification sink.  [sendEmail] and [sendSMS] are taken to resolve:
    the message is recorded as sent. *)
Definition sendEmail (to : string) (otp : string) : Call unit :=
  fun w => (inr tt, mkWorld (auths w) (users w) (outbox w ++ [Email to otp])).

Definition sendSMS (to : option string) (otp : string) : Call unit :=
  fun w => (inr tt, mkWorld (auths w) (users w) (outbox w ++ [SMS to otp])).

(** *** Transactions

    Writes made with [{ session }] are held in the session and reach the
    collections when the transaction commits; aborting drops them.
    [commitTransaction], [abortTransaction] and [endSession] are taken to
    resolve. *)
Record Session : Type := mkSession {
  pendingAuths : list Auth.t;
  pendingUsers : list User.t;
}.

Definition startTransaction : Session := mkSession [] [].

Definition Auth_create_in (env : Env) (s : Session) (a : Auth.t)
  : Error + (Auth.t * Session) :=
  if fails env AuthCreate then inl (StoreError AuthCreate)
  else inr (a, mkSession (pendingAuths s ++ [a]) (pendingUsers s)).

Definition User_create_in (env : Env) (s : Session) (u : User.t)
  : Error + (User.t * Session) :=
  if fails env UserCreate then inl (StoreError UserCreate)
  else inr (u, mkSession (pendingAuths s) (pendingUsers s ++ [u])).

Definition commitTransaction (s : Session) (w : World) : World :=
  mkWorld (auths w ++ pendingAuths s) (users w ++ pendingUsers s) (outbox w).

Definition abortTransaction (s : Session) (w : World) : World := w.

(** Modelled from the spec: the enum [Method] of [@shared/enums] is not in
    src/.  Section 4.1 of the spec gives its three members; [resendOTP]
    names them [emailActivation], [phoneActivation] and [emailRecovery]. *)
Inductive Method : Type :=
| emailActivation | phoneActivation | emailRecovery.

Definition Method_eqb (m1 m2 : Method) : bool :=
  match m1, m2 with
  | emailActivation, emailActivation => true
  | phoneActivation, phoneActivation => true
  | emailRecovery, emailRecovery => true
  | _, _ => false
  end.

(** The identity the authorization middleware decodes into [req.user]. *)
Record DecodedUser : Type := mkDecoded {
  authId : nat;
  userId : nat;
  decodedEmail : string;
}.

(** ** The handlers *)

Section Controller.

Context `{Libraries}.
Variable env : Env.

Definition register (name email : string) (phoneNumber : option string)
           (password confirmPassword : string) : Handler :=
  let hashedPassword := bcrypt_hash (salt env) password in
  let verificationOTP := generateOTP env in
  let verificationOTPExpiredAt := now env + 30 * 60 * 1000 in
  found <~ Auth_findOne env (by_email email) ;;
  match found with
  | Some auth =>
      if negb (Auth.isVerified (fields auth)) then
        let auth := assign path_verificationOTP
                      (Auth.set_verificationOTP (Some verificationOTP)) auth in
        let auth := assign path_verificationOTPExpiredAt
                      (Auth.set_verificationOTPExpiredAt (Some verificationOTPExpiredAt))
                      auth in
        _ <~ Auth_save env auth ;;
        _ <! sendEmail email verificationOTP ;;
        respond CONFLICT false "Your account already exists. Please verify now."
                [("isVerified", VBool (Auth.isVerified (fields auth)));
                 ("verificationOTP", VOptString (Auth.verificationOTP (fields auth)))]
      else
        respond CONFLICT false "Your account already exists. Please login now."
                [("isVerified", VBool (Auth.isVerified (fields auth)))]
  | None =>
      fun w =>
        let session := startTransaction in
        match Auth_create_in env session
                (Auth.mk (newAuthId env) email (Some hashedPassword) None
                        false false
                        (Some verificationOTP) (Some verificationOTPExpiredAt)
                        None None)
        with
        | inl error => (Next error, abortTransaction session w)
        | inr (auth, session) =>
            match User_create_in env session
                    (User.mk (newUserId env) (Auth._id auth) name phoneNumber None)
            with
            | inl error => (Next error, abortTransaction session w)
            | inr (_, session) =>
                let w := commitTransaction session w in
                let w := snd (sendEmail email verificationOTP w) in
                respond CREATED true "Registration successful"
                        [("isVerified", VBool (Auth.isVerified auth));
                         ("verificationOTP", VOptString (Auth.verificationOTP auth))]
                        w
            end
        end
  end.

Definition activate (email verificationOTP : string) : Handler :=
  if negb (truthy email) || negb (truthy verificationOTP) then
    next (createError BAD_REQUEST "Email and Verification OTP are required.")
  else
    found <~ Auth_findOne_without_password env (by_email email) ;;
    match found with
    | None => next (createError NOT_FOUND "User not found")
    | Some auth =>
        let currentTime := now env in
        if negb (truthy_opt (Auth.verificationOTP (fields auth)))
           || match Auth.verificationOTPExpiredAt (fields auth) with
              | None => true
              | Some expiredAt => expiredAt <? currentTime
              end
        then next (createError UNAUTHORIZED "Verification OTP has expired.")
        else if negb (match Auth.verificationOTP (fields auth) with
                      | Some stored => (verificationOTP =? stored)%string
                      | None => false
                      end)
        then next (createError UNAUTHORIZED "Wrong OTP. Please enter the correct one")
        else
          let auth := assign path_verificationOTP (Auth.set_verificationOTP (Some "")) auth in
          let auth := assign path_verificationOTPExpiredAt
                        (Auth.set_verificationOTPExpiredAt None) auth in
          let auth := assign path_isVerified (Auth.set_isVerified true) auth in
          _ <~ Auth_save env auth ;;
          match JWT_ACCESS_SECRET env with
          | Some accessSecret =>
              if truthy accessSecret then
                let accessToken :=
                  generateToken (Auth._id (fields auth)) accessSecret "96h" in
                populated <~ User_findOne_populated env (Auth._id (fields auth)) ;;
                match populated with
                | None => next (createError NOT_FOUND "Associated user not found.")
                | Some _ =>
                    respond OK true "Account successfully verified."
                            [("accessToken", VString accessToken);
                             ("auth", VAuth (fields auth));
                             ("user", VUser populated)]
                end
              else next (createError INTERNAL_SERVER_ERROR "Unexpected Server Error")
          | None => next (createError INTERNAL_SERVER_ERROR "Unexpected Server Error")
          end
    end.

(** The two JWT secrets, when both are set and non-empty. *)
Definition secrets : option (string * string) :=
  match JWT_ACCESS_SECRET env, JWT_REFRESH_SECRET env with
  | Some accessSecret, Some refreshSecret =>
      if truthy accessSecret && truthy refreshSecret
      then Some (accessSecret, refreshSecret) else None
  | _, _ => None
  end.

(** The common tail of [login] and [signInWithGoogle], from the reading of
    the secrets to the response. *)
Definition issueTokens (auth : Auth.t) : Handler :=
  match secrets with
  | None => next (createError INTERNAL_SERVER_ERROR "JWT secret is not defined.")
  | Some (accessSecret, refreshSecret) =>
      let accessToken := generateToken (Auth._id auth) accessSecret "96h" in
      let refreshToken := generateToken (Auth._id auth) refreshSecret "96h" in
      populated <~ User_findOne_populated env (Auth._id auth) ;;
      respond OK true "Login successful"
              [("accessToken", VString accessToken);
               ("refreshToken", VString refreshToken);
               ("auth", VAuth auth);
               ("user", VUser populated)]
  end.

Definition login (email password : string) : Handler :=
  found <~ Auth_findOne env (by_email email) ;;
  match found with
  | None => next (createError NOT_FOUND "No account found with the given email")
  | Some auth =>
      isPasswordValid <~ resolved (bcrypt_compare password (Auth.password (fields auth))) ;;
      if negb isPasswordValid then next (createError UNAUTHORIZED "Wrong password")
      else if negb (Auth.isVerified (fields auth))
      then next (createError UNAUTHORIZED "Verify your email first")
      else if Auth.isBlocked (fields auth)
      then next (createError FORBIDDEN
                   "Your account had been blocked. Contact Administrator")
      else issueTokens (fields auth)
  end.

Definition signInWithGoogle (googleId name email : string) (avatar : option string)
  : Handler :=
  found <~ Auth_findOne env (by_googleId googleId) ;;
  match found with
  | Some auth => issueTokens (fields auth)
  | None =>
      auth <~ Auth_create env
                (Auth.mk (newAuthId env) email None (Some googleId) false false
                        None None None None) ;;
      _ <~ User_create env (User.mk (newUserId env) (Auth._id auth) name None avatar) ;;
      issueTokens auth
  end.

Definition resetPassword (user : DecodedUser) (password confirmPassword : string)
  : Handler :=
  found <~ Auth_findOne env (by_email (decodedEmail user)) ;;
  match found with
  | None => next (createError NOT_FOUND "User Not Found")
  | Some auth =>
      if negb (password =? confirmPassword)%string
      then next (createError BAD_REQUEST "Passwords don't match")
      else
        let auth := assign path_password
                      (Auth.set_password (Some (bcrypt_hash (salt env) password))) auth in
        _ <! Auth_save env auth ;;
        respond OK true "Password reset successful" []
  end.

Definition resendOTP (method : Method) (email : string) : Handler :=
  found <~ Auth_findOne env (by_email email) ;;
  match found with
  | None => next (createError NOT_FOUND "Account not found")
  | Some auth =>
      if (Method_eqb method emailActivation || Method_eqb method phoneActivation)
         && Auth.isVerified (fields auth)
      then respond CONFLICT true "Your account is already verified. Please login."
                   [("isVerified", VBool (Auth.isVerified (fields auth)))]
      else if Method_eqb method emailActivation && negb (Auth.isVerified (fields auth))
      then
        let verificationOTP := generateOTP env in
        let auth := assign path_verificationOTP
                      (Auth.set_verificationOTP (Some verificationOTP)) auth in
        let auth := assign path_verificationOTPExpiredAt
                      (Auth.set_verificationOTPExpiredAt (Some (now env + 60 * 1000))) auth in
        _ <~ Auth_save env auth ;;
        _ <! sendEmail email verificationOTP ;;
        respond OK true "OTP resend successful"
                [("isVerified", VBool (Auth.isVerified (fields auth)));
                 ("verificationOTP", VOptString (Auth.verificationOTP (fields auth)))]
      else if Method_eqb method phoneActivation && negb (Auth.isVerified (fields auth))
      then
        let verificationOTP := generateOTP env in
        let auth := assign path_verificationOTP
                      (Auth.set_verificationOTP (Some verificationOTP)) auth in
        let auth := assign path_verificationOTPExpiredAt
                      (Auth.set_verificationOTPExpiredAt (Some (now env + 60 * 1000))) auth in
        user <~ User_findOne env (Auth._id (fields auth)) ;;
        _ <~ Auth_save env auth ;;
        match user with
        | None =>
            fun w => (Rejected (TypeError "Cannot read properties of null"), w)
        | Some user =>
            _ <! sendSMS (User.phoneNumber user) verificationOTP ;;
            respond OK true "OTP resend successful"
                    [("isVerified", VBool (Auth.isVerified (fields auth)));
                     ("verificationOTP",
                      VOptString (Auth.verificationOTP (fields auth)))]
        end
      else if Method_eqb method emailRecovery
      then
        let recoveryOTP := generateOTP env in
        let auth := assign path_recoveryOTP (Auth.set_recoveryOTP (Some recoveryOTP)) auth in
        let auth := assign path_recoveryOTPExpiredAt
                      (Auth.set_recoveryOTPExpiredAt (Some (now env + 60 * 1000))) auth in
        _ <~ Auth_save env auth ;;
        _ <! sendEmail email recoveryOTP ;;
        respond OK true "OTP resend successful"
                [("recoveryOTP", VOptString (Auth.recoveryOTP (fields auth)))]
      else fun w => (NoResponse, w)
  end.

Definition changePassword (user : DecodedUser)
           (password newPassword confirmPassword : string) : Handler :=
  found <~ Auth_findById env (authId user) ;;
  match found with
  | None => next (createError NOT_FOUND "User Not Found")
  | Some auth =>
      isMatch <~ resolved (bcrypt_compare password (Auth.password (fields auth))) ;;
      if negb isMatch then next (createError UNAUTHORIZED "Wrong Password")
      else
        let auth := assign path_password
                      (Auth.set_password (Some (bcrypt_hash (salt env) newPassword))) auth in
        _ <! Auth_save env auth ;;
        respond OK true "Passowrd changed successfully" []
  end.

End Controller.

(** ** The other handlers of the controller *)

(** [currentTime > date], where the stored date may be absent.  An absent
    date is read as null, the value [recoveryVerify] itself stores and the
    one section 3 of the spec names (a timestamp or null); [>] converts null
    to 0.  The record does not tell null from a path that was never set: for
    that one the document reads undefined and [>] is false, so the handler
    goes on to the comparison and forwards Unauthorized with the message of
    the wrong OTP instead of the message of the expiry. *)
Definition date_gt (currentTime : Z) (date : option Z) : bool :=
  match date with
  | None => 0 <? currentTime
  | Some d => d <? currentTime
  end.

Section Recovery.

Variable env : Env.

Definition recovery (email : string) : Handler :=
  found <~ Auth_findOne env (by_email email) ;;
  match found with
  | None => next (createError NOT_FOUND "User Not Found")
  | Some auth =>
      let recoveryOTP := generateOTP env in
      let auth := assign path_recoveryOTP (Auth.set_recoveryOTP (Some recoveryOTP)) auth in
      let auth := assign path_recoveryOTPExpiredAt
                    (Auth.set_recoveryOTPExpiredAt (Some (now env + 60 * 1000))) auth in
      _ <! Auth_save env auth ;;
      _ <! sendEmail email recoveryOTP ;;
      respond OK true "Success"
              [("recoveryOTP", VOptString (Auth.recoveryOTP (fields auth)))]
  end.

Definition recoveryVerify (email recoveryOTP : string) : Handler :=
  if negb (truthy email) || negb (truthy recoveryOTP) then
    next (createError BAD_REQUEST "Email and Recovery OTP are required.")
  else
    found <~ Auth_findOne_without_password env (by_email email) ;;
    match found with
    | None => next (createError NOT_FOUND "User not found")
    | Some auth =>
        let currentTime := now env in
        if date_gt currentTime (Auth.recoveryOTPExpiredAt (fields auth))
        then next (createError UNAUTHORIZED "Recovery OTP has expired.")
        else if negb (match Auth.recoveryOTP (fields auth) with
                      | Some stored => (recoveryOTP =? stored)%string
                      | None => false
                      end)
        then next (createError UNAUTHORIZED "Wrong OTP.Please enter the correct one.")
        else
          let auth := assign path_recoveryOTP (Auth.set_recoveryOTP (Some "")) auth in
          let auth := assign path_recoveryOTPExpiredAt
                        (Auth.set_recoveryOTPExpiredAt None) auth in
          _ <~ Auth_save env auth ;;
          respond OK true "Email successfully verified." []
    end.

End Recovery.

(** *** Removing an account *)

(** The two calls of [remove], and for each the error its promise is
    rejected with, if it is.  When both are rejected, [Promise.all] rejects
    with the error of the one that is rejected first. *)
Inductive DeleteOp : Type :=
| AuthFindByIdAndDelete | UserFindByIdAndDelete.

Record Deletes : Type := mkDeletes {
  rejection : DeleteOp -> option Error;
  firstRejected : DeleteOp;
}.

(** The list without its first element that satisfies [p]. *)
Fixpoint delete_first {A : Type} (p : A -> bool) (l : list A) : list A :=
  match l with
  | [] => []
  | x :: l' => if p x then l' else x :: delete_first p l'
  end.

Definition by_user_id (i : nat) (u : User.t) : bool := (User._id u =? i)%nat.

(** [Auth.findByIdAndDelete(id)] and [User.findByIdAndDelete(id)]: the
    document with this [_id], if there is one, is taken out and returned. *)
Definition Auth_findByIdAndDelete (d : Deletes) (i : nat) : Call (option Auth.t) :=
  fun w =>
    match rejection d AuthFindByIdAndDelete with
    | Some error => (inl error, w)
    | None => (inr (find (by_id i) (auths w)),
               set_auths (delete_first (by_id i) (auths w)) w)
    end.

Definition User_findByIdAndDelete (d : Deletes) (i : nat) : Call (option User.t) :=
  fun w =>
    match rejection d UserFindByIdAndDelete with
    | Some error => (inl error, w)
    | None => (inr (find (by_user_id i) (users w)),
               set_users (delete_first (by_user_id i) (users w)) w)
    end.

(** [Promise.all([p1, p2])]: both calls run; the result is rejected as soon
    as one of them is. *)
Definition Promise_all {A B : Type} (d : Deletes) (r1 : Error + A) (r2 : Error + B)
  : Error + (A * B) :=
  match r1, r2 with
  | inr x, inr y => inr (x, y)
  | inl e, inr _ => inl e
  | inr _, inl e => inl e
  | inl e1, inl e2 =>
      match firstRejected d with
      | AuthFindByIdAndDelete => inl e1
      | UserFindByIdAndDelete => inl e2
      end
  end.

(** The world after [remove] is the one both calls have left. *)
Definition remove (d : Deletes) (user : DecodedUser) : Handler :=
  fun w =>
    let userId := userId user in
    let authId := authId user in
    let (r1, w) := Auth_findByIdAndDelete d authId w in
    let (r2, w) := User_findByIdAndDelete d userId w in
    match Promise_all d r1 r2 with
    | inr _ => respond OK true "User Removed successfully" [] w
    | inl e => next e w
    end.

(** ** The router *)

Inductive Verb : Type := POST | DELETE.

(** The middlewares of [@middlewares/authorization] the router names. *)
Inductive Guard : Type := authorize | recoveryAuthorize.

(** The members of [AuthController]. *)
Inductive Endpoint : Type :=
| Register | Activate | Login | SignInWithGoogle | Recovery | RecoveryVerify
| ResendOTP | ResetPassword | ChangePassword | Remove.

Record Route : Type := mkRoute {
  verb : Verb;
  path : string;
  guard : option Guard;
  endpoint : Endpoint;
}.

(** The routes of [authRouter], in the order they are registered. *)
Definition authRouter : list Route :=
  [ mkRoute POST "/register" None Register;
    mkRoute POST "/activate" None Activate;
    mkRoute POST "/login" None Login;
    mkRoute POST "/signin-with-google" None SignInWithGoogle;
    mkRoute POST "/recovery" None Recovery;
    mkRoute POST "/recovery-verify" None Recovery;
    mkRoute POST "/reset-password" (Some recoveryAuthorize) ResetPassword;
    mkRoute POST "/resend-otp" None ResendOTP;
    mkRoute POST "/change-password" (Some authorize) ChangePassword;
    mkRoute DELETE "/delete" (Some authorize) Remove ].

(** What the handlers read of a request: the fields of [req.body] they
    destructure, and [req.user]. *)
Record Request : Type := mkRequest {
  body_name : string;
  body_email : string;
  body_phoneNumber : option string;
  body_password : string;
  body_confirmPassword : string;
  body_newPassword : string;
  body_verificationOTP : string;
  body_recoveryOTP : string;
  body_googleId : string;
  body_avatar : option string;
  body_method : Method;
  req_user : DecodedUser;
}.

(** The controller function an endpoint names, on a request.  For a guarded
    route this is what runs once the guard has let the request through. *)
Definition invoke `{Libraries} (env : Env) (d : Deletes) (e : Endpoint)
           (req : Request) : Handler :=
  match e with
  | Register =>
      register env (body_name req) (body_email req) (body_phoneNumber req)
               (body_password req) (body_confirmPassword req)
  | Activate => activate env (body_email req) (body_verificationOTP req)
  | Login => login env (body_email req) (body_password req)
  | SignInWithGoogle =>
      signInWithGoogle env (body_googleId req) (body_name req) (body_email req)
                       (body_avatar req)
  | Recovery => recovery env (body_email req)
  | RecoveryVerify => recoveryVerify env (body_email req) (body_recoveryOTP req)
  | ResendOTP => resendOTP env (body_method req) (body_email req)
  | ResetPassword =>
      resetPassword env (req_user req) (body_password req) (body_confirmPassword req)
  | ChangePassword =>
      changePassword env (req_user req) (body_password req) (body_newPassword req)
                     (body_confirmPassword req)
  | Remove => remove d (req_user req)
  end.

(** ** Vocabulary of the statements *)

(** Every Auth has a User that refers to it. *)
Definition paired (w : World) : bool :=
  forallb (fun a => existsb (by_auth (Auth._id a)) (users w)) (auths w).

(** Two Auth documents that differ at most in the verification OTP and its
    expiry. *)
Definition same_but_verificationOTP (a b : Auth.t) : Prop :=
  Auth._id b = Auth._id a /\ Auth.email b = Auth.email a /\
  Auth.password b = Auth.password a /\ Auth.googleId b = Auth.googleId a /\
  Auth.isVerified b = Auth.isVerified a /\ Auth.isBlocked b = Auth.isBlocked a /\
  Auth.recoveryOTP b = Auth.recoveryOTP a /\
  Auth.recoveryOTPExpiredAt b = Auth.recoveryOTPExpiredAt a.

(** The stored password hash of every Auth, in collection order. *)
Definition hashes (w : World) : list (nat * option string) :=
  map (fun a => (Auth._id a, Auth.password a)) (auths w).

(** A stored document after a save of [a] whose modified paths amount to
    [f]: the documents with the [_id] of [a] get [f], the others stay. *)
Definition updated (a : Auth.t) (f : Auth.t -> Auth.t) (stored : Auth.t) : Auth.t :=
  if (Auth._id stored =? Auth._id a)%nat then f stored else stored.

(** The four changes the handlers save. *)
Definition reissueVerification (otp : string) (expiry : Z) (a : Auth.t) : Auth.t :=
  Auth.set_verificationOTPExpiredAt (Some expiry)
    (Auth.set_verificationOTP (Some otp) a).

Definition reissueRecovery (otp : string) (expiry : Z) (a : Auth.t) : Auth.t :=
  Auth.set_recoveryOTPExpiredAt (Some expiry) (Auth.set_recoveryOTP (Some otp) a).

Definition consumeVerification (a : Auth.t) : Auth.t :=
  Auth.set_isVerified true
    (Auth.set_verificationOTPExpiredAt None (Auth.set_verificationOTP (Some "") a)).

Definition rehash (hash : string) (a : Auth.t) : Auth.t :=
  Auth.set_password (Some hash) a.

(** The status a client sees: the one of the response, or the one the error
    handler gives the error. *)
Definition statusOf (o : Outcome) : option Z :=
  match o with
  | Responded status _ => Some (statusNumber status)
  | Next error | Rejected error => Some (statusNumber (errorStatus error))
  | NoResponse => None
  end.

Section Created.

Context `{Libraries}.
Variable env : Env.

(** The two documents [register] creates for a fresh email. *)
Definition registeredAuth (email password : string) : Auth.t :=
  Auth.mk (newAuthId env) email (Some (bcrypt_hash (salt env) password)) None
          false false
          (Some (generateOTP env)) (Some (now env + 30 * 60 * 1000)) None None.

Definition registeredUser (name : string) (phoneNumber : option string) : User.t :=
  User.mk (newUserId env) (newAuthId env) name phoneNumber None.

(** The two documents [signInWithGoogle] creates for an unknown googleId. *)
Definition googleAuth (googleId email : string) : Auth.t :=
  Auth.mk (newAuthId env) email None (Some googleId) false false
          None None None None.

Definition googleUser (name : string) (avatar : option string) : User.t :=
  User.mk (newUserId env) (newAuthId env) name None avatar.

End Created.

(** ** Sample data

    A toy instance of the libraries, three environments and a few worlds, on
    which the handlers are run in the examples below. *)

Definition toy : Libraries :=
  Build_Libraries
    (fun salt data => String.append salt data)
    (fun data hash => (hash =? String.append "s" data)%string)
    (fun id secret lifetime => String.append secret lifetime).

Definition Op_eqb (o1 o2 : Op) : bool :=
  match o1, o2 with
  | AuthFindOne, AuthFindOne | AuthFindById, AuthFindById
  | AuthSave, AuthSave | AuthCreate, AuthCreate
  | UserCreate, UserCreate | UserFindOne, UserFindOne => true
  | _, _ => false
  end.

(** At time [t], with OTP 123456 drawn, both secrets set, no call rejected. *)
Definition quiet (t : Z) : Env :=
  mkEnv t "123456" "s" 7 7 (Some "A") (Some "R") (fun _ => false).

(** The same, with the calls [op] rejected. *)
Definition rejecting (op : Op) (t : Z) : Env :=
  mkEnv t "123456" "s" 7 7 (Some "A") (Some "R") (Op_eqb op).

Definition nobody : World := mkWorld [] [] [].

(** Ann registered with password pw and has not verified yet; the OTP is
    good until time 5000. *)
Definition ann : Auth.t :=
  Auth.mk 1 "a@x.com" (Some "spw") None false false
          (Some "111111") (Some 5000) None None.

Definition annUser : User.t := User.mk 1 1 "Ann" (Some "+100") None.

Definition annPending : World := mkWorld [ann] [annUser] [].

Definition annVerified : World :=
  mkWorld [consumeVerification ann] [annUser] [].

(** Bob signed in with Google; the Auth is blocked and not verified. *)
Definition bob : Auth.t :=
  Auth.mk 2 "b@x.com" None (Some "g-bob") false true None None None None.

Definition bobUser : User.t := User.mk 2 2 "Bob" None None.

Definition bobOnly : World := mkWorld [bob] [bobUser] [].

Definition annDecoded : DecodedUser := mkDecoded 1 1 "a@x.com".

(** ** More vocabulary and sample data *)

Definition consumeRecovery (a : Auth.t) : Auth.t :=
  Auth.set_recoveryOTPExpiredAt None (Auth.set_recoveryOTP (Some "") a).

(** Two Auth documents that differ at most in the recovery OTP and its
    expiry. *)
Definition same_but_recoveryOTP (a b : Auth.t) : Prop :=
  Auth._id b = Auth._id a /\ Auth.email b = Auth.email a /\
  Auth.password b = Auth.password a /\ Auth.googleId b = Auth.googleId a /\
  Auth.isVerified b = Auth.isVerified a /\ Auth.isBlocked b = Auth.isBlocked a /\
  Auth.verificationOTP b = Auth.verificationOTP a /\
  Auth.verificationOTPExpiredAt b = Auth.verificationOTPExpiredAt a.

(** Two Auth documents with the same keys and the same blocked flag. *)
Definition same_identity (a b : Auth.t) : Prop :=
  Auth._id b = Auth._id a /\ Auth.email b = Auth.email a /\
  Auth.googleId b = Auth.googleId a /\ Auth.isBlocked b = Auth.isBlocked a.

(** The world after a series of requests to one handler that takes an OTP,
    each with its own environment and its own guess. *)
Definition after_guesses (h : Env -> string -> Handler)
           (attempts : list (Env * string)) (w : World) : World :=
  fold_left (fun w attempt => snd (h (fst attempt) (snd attempt) w)) attempts w.

Definition unavailable : Error := HttpError INTERNAL_SERVER_ERROR "store unavailable".

Definition noRejection : Deletes := mkDeletes (fun _ => None) AuthFindByIdAndDelete.

Definition authDeleteRejected : Deletes :=
  mkDeletes (fun op => match op with
                       | AuthFindByIdAndDelete => Some unavailable
                       | UserFindByIdAndDelete => None
                       end)
            AuthFindByIdAndDelete.

(** Ann after [recovery] at time 100. *)
Definition annRecovering : World :=
  mkWorld [reissueRecovery "123456" 60100 ann] [annUser] [Email "a@x.com" "123456"].

(** Ann's Auth without a User. *)
Definition annAlone : World := mkWorld [ann] [] [].

(** At time [t], no secret set, no call rejected. *)
Definition noSecret (t : Z) : Env :=
  mkEnv t "123456" "s" 7 7 None None (fun _ => false).

Definition aRequest : Request :=
  mkRequest "Ann" "a@x.com" None "pw" "pw" "new" "111111" "123456" "g-ann" None
            emailRecovery annDecoded.

(** [w'] differs from [w] at most by one save and by messages sent: no
    document was added or deleted and no User has changed. *)
Definition only_saved (w w' : World) : Prop :=
  users w' = users w
  /\ (auths w' = auths w \/ exists d, auths w' = map (save_into d) (auths w)).

(** ** Properties of the collections *)

(** A lookup after a map that does not change what the filter sees. *)
Lemma find_map_stable {A : Type} (p : A -> bool) (f : A -> A) (l : list A) :
  (forall x, p (f x) = p x) ->
  find p (map f l) = option_map f (find p l).
Proof.
  intros Hp. induction l as [|x l IH]; simpl; auto.
  rewrite Hp. destruct (p x); auto.
Qed.

Lemma find_app_none {A : Type} (p : A -> bool) (l l' : list A) :
  find p l = None -> find p (l ++ l') = find p l'.
Proof.
  induction l as [|x l IH]; simpl; auto.
  destruct (p x); [discriminate | exact IH].
Qed.

Lemma find_app_last {A : Type} (p : A -> bool) (l : list A) (x : A) :
  p x = true -> exists y, find p (l ++ [x]) = Some y.
Proof.
  intros Hp. induction l as [|z l IH]; simpl.
  - rewrite Hp. eauto.
  - destruct (p z); eauto.
Qed.

Lemma find_by_email_updated (e : string) (a : Auth.t) (f : Auth.t -> Auth.t)
      (l : list Auth.t) :
  (forall s, Auth.email (f s) = Auth.email s) ->
  find (by_email e) l = Some a ->
  find (by_email e) (map (updated a f) l) = Some (f a).
Proof.
  intros Hf Ha. rewrite find_map_stable, Ha.
  - simpl. unfold updated. now rewrite Nat.eqb_refl.
  - intros s. unfold by_email, updated.
    destruct (Auth._id s =? Auth._id a)%nat; [now rewrite Hf|reflexivity].
Qed.

Lemma find_by_id_updated (i : nat) (a : Auth.t) (f : Auth.t -> Auth.t)
      (l : list Auth.t) :
  (forall s, Auth._id (f s) = Auth._id s) ->
  find (by_id i) l = Some a ->
  find (by_id i) (map (updated a f) l) = Some (f a).
Proof.
  intros Hf Ha. rewrite find_map_stable, Ha.
  - simpl. unfold updated. now rewrite Nat.eqb_refl.
  - intros s. unfold by_id, updated.
    destruct (Auth._id s =? Auth._id a)%nat; [now rewrite Hf|reflexivity].
Qed.

Lemma Forall2_map_same {A : Type} (R : A -> A -> Prop) (f : A -> A) (l : list A) :
  (forall x, R x (f x)) -> Forall2 R l (map f l).
Proof. intros Hf. induction l; simpl; constructor; auto. Qed.

Lemma same_but_verificationOTP_refl (a : Auth.t) : same_but_verificationOTP a a.
Proof. unfold same_but_verificationOTP. repeat split. Qed.

Lemma same_but_verificationOTP_reissue (a : Auth.t) (otp : string) (expiry : Z)
      (stored : Auth.t) :
  same_but_verificationOTP stored (updated a (reissueVerification otp expiry) stored).
Proof.
  unfold updated. destruct (_ =? _)%nat.
  - unfold same_but_verificationOTP. simpl. repeat split.
  - apply same_but_verificationOTP_refl.
Qed.

Lemma hashes_reissue (a : Auth.t) (otp : string) (expiry : Z) (w : World) :
  hashes (set_auths (map (updated a (reissueVerification otp expiry)) (auths w)) w)
  = hashes w.
Proof.
  unfold hashes. simpl. rewrite map_map. apply map_ext. intros s.
  unfold updated. destruct (_ =? _)%nat; reflexivity.
Qed.

Lemma existsb_app_l {A : Type} (p : A -> bool) (l l' : list A) :
  existsb p l = true -> existsb p (l ++ l') = true.
Proof. intros Hl. rewrite existsb_app, Hl. reflexivity. Qed.

(** Committing an Auth together with a User that refers to it keeps every
    Auth paired. *)
Lemma paired_commit (w : World) (a : Auth.t) (u : User.t) :
  User.auth u = Auth._id a ->
  paired w = true ->
  paired (mkWorld (auths w ++ [a]) (users w ++ [u]) (outbox w)) = true.
Proof.
  unfold paired. simpl. intros Hu Hw.
  rewrite forallb_app. apply andb_true_iff. split.
  - rewrite forallb_forall in *. intros x Hx.
    apply existsb_app_l. now apply Hw.
  - simpl. rewrite existsb_app. simpl. unfold by_auth at 2.
    rewrite Hu, Nat.eqb_refl. now rewrite orb_true_r.
Qed.

Lemma truthy_iff (s : string) : truthy s = true <-> s <> "".
Proof.
  unfold truthy. rewrite negb_true_iff. split.
  - intros Hs He. subst. discriminate.
  - intros Hs. apply String.eqb_neq. exact Hs.
Qed.

(** ** Register *)

Section RegisterFacts.

Context `{Libraries}.
Variable env : Env.
Variables (name email : string) (phoneNumber : option string).
Variables (password confirmPassword : string).

(** C1.  For a fresh email, [register] creates the Auth and its User in one
    transaction.  When either write is rejected the error is forwarded and
    the world is what it was, so no Auth is left without a User; when
    neither is, the response is Created and exactly the two paired
    documents were added.  In every case a world where each Auth has a User
    stays one. *)
Theorem register_fresh_email_is_atomic (w : World) :
  find (by_email email) (auths w) = None ->
  let out := fst (register env name email phoneNumber password confirmPassword w) in
  let w' := snd (register env name email phoneNumber password confirmPassword w) in
  (fails env AuthCreate = true \/ fails env UserCreate = true ->
     (exists error, out = Next error) /\ w' = w)
  /\ (fails env AuthFindOne = false ->
      fails env AuthCreate = false -> fails env UserCreate = false ->
      out = Responded CREATED
              (mkJson true "Registration successful"
                 [("isVerified", VBool false);
                  ("verificationOTP", VOptString (Some (generateOTP env)))])
      /\ auths w' = auths w ++ [registeredAuth env email password]
      /\ users w' = users w ++ [registeredUser env name phoneNumber]
      /\ User.auth (registeredUser env name phoneNumber)
         = Auth._id (registeredAuth env email password)
      /\ outbox w' = outbox w ++ [Email email (generateOTP env)])
  /\ (paired w = true -> paired w' = true).
Proof.
  intros Hfresh. cbv zeta.
  unfold register, to_or_next, Auth_findOne, Auth_create_in, User_create_in.
  rewrite Hfresh.
  destruct (fails env AuthFindOne), (fails env AuthCreate) eqn:Ea,
    (fails env UserCreate) eqn:Eu; simpl;
    repeat split; intros; try discriminate; eauto;
    try (destruct w; reflexivity);
    try (match goal with H : _ \/ _ |- _ => destruct H; discriminate end).
  now apply paired_commit.
Qed.

(** C9.  When the email belongs to an unverified Auth, [register] writes
    nothing but that Auth's verification OTP and its expiry: every stored
    Auth keeps its password hash and all its other fields whatever password
    the retry carries, and no Auth or User is added.  When the save is not
    rejected, the OTP is the fresh one with a 30-minute expiry and the
    response is the Conflict that asks to verify. *)
Theorem register_retry_only_touches_the_otp (w : World) (a : Auth.t) :
  fails env AuthFindOne = false ->
  find (by_email email) (auths w) = Some a ->
  Auth.isVerified a = false ->
  let out := fst (register env name email phoneNumber password confirmPassword w) in
  let w' := snd (register env name email phoneNumber password confirmPassword w) in
  let otp := generateOTP env in
  let expiry := now env + 30 * 60 * 1000 in
  users w' = users w
  /\ Forall2 same_but_verificationOTP (auths w) (auths w')
  /\ hashes w' = hashes w
  /\ (fails env AuthSave = true -> out = Next (StoreError AuthSave) /\ w' = w)
  /\ (fails env AuthSave = false ->
      auths w' = map (updated a (reissueVerification otp expiry)) (auths w)
      /\ find (by_email email) (auths w') = Some (reissueVerification otp expiry a)
      /\ out = Responded CONFLICT
                 (mkJson false "Your account already exists. Please verify now."
                    [("isVerified", VBool false);
                     ("verificationOTP", VOptString (Some otp))])).
Proof.
  intros Hfind Ha Hv. cbv zeta.
  unfold register, to_or_next, await, Auth_findOne, Auth_save.
  rewrite Hfind, Ha. simpl. rewrite Hv. simpl.
  destruct (fails env AuthSave); simpl.
  - repeat apply conj; try reflexivity; try (intros; discriminate).
    + rewrite <- (map_id (auths w)) at 2.
      apply Forall2_map_same, same_but_verificationOTP_refl.
    + intros _. now destruct w.
  - rewrite (map_ext _ (updated a (reissueVerification (generateOTP env)
                                     (now env + 30 * 60 * 1000))))
      by reflexivity.
    repeat apply conj; try reflexivity; try (intros; discriminate).
    + apply Forall2_map_same, same_but_verificationOTP_reissue.
    + apply hashes_reissue.
    + intros _. repeat apply conj; try reflexivity.
      now apply find_by_email_updated.
Qed.

End RegisterFacts.

(** ** Activate *)

Section ActivateFacts.

Context `{Libraries}.
Variable env : Env.
Variables email verificationOTP : string.

(** The expiry test of [activate] comes first: when it fails, the OTP of the
    request is not looked at. *)
Lemma activate_dead_otp (e : Env) (w : World) (a : Auth.t) :
  email <> "" -> verificationOTP <> "" ->
  fails e AuthFindOne = false ->
  find (by_email email) (auths w) = Some a ->
  (truthy_opt (Auth.verificationOTP a) = false
   \/ Auth.verificationOTPExpiredAt a = None
   \/ exists expiredAt,
        Auth.verificationOTPExpiredAt a = Some expiredAt /\ expiredAt < now e) ->
  activate e email verificationOTP w =
    (Next (HttpError UNAUTHORIZED "Verification OTP has expired."), w).
Proof.
  intros He Ho Hfind Ha Hexp.
  apply truthy_iff in He. apply truthy_iff in Ho.
  unfold activate, to_or_next, Auth_findOne_without_password.
  rewrite He, Ho. simpl. rewrite Hfind, Ha. simpl.
  destruct Hexp as [Hotp | [Hnone | [t [Ht Hlt]]]].
  - rewrite Hotp. reflexivity.
  - rewrite Hnone, orb_true_r. reflexivity.
  - rewrite Ht. apply Z.ltb_lt in Hlt. rewrite Hlt, orb_true_r. reflexivity.
Qed.

(** The world after [activate] was given the stored OTP in time. *)
Lemma activate_live_otp_world (w : World) (a : Auth.t) (expiredAt : Z) :
  email <> "" -> verificationOTP <> "" ->
  fails env AuthFindOne = false -> fails env AuthSave = false ->
  find (by_email email) (auths w) = Some a ->
  Auth.verificationOTP a = Some verificationOTP ->
  Auth.verificationOTPExpiredAt a = Some expiredAt ->
  now env <= expiredAt ->
  snd (activate env email verificationOTP w)
  = set_auths (map (updated a consumeVerification) (auths w)) w.
Proof.
  intros He Ho Hfind Hsave Ha Hotp Hexp Hnow.
  apply truthy_iff in He. apply truthy_iff in Ho.
  unfold activate, to_or_next, Auth_findOne_without_password, Auth_save.
  rewrite He, Ho. simpl. rewrite Hfind, Ha. simpl. rewrite Hotp, Hexp. simpl.
  rewrite Ho. simpl.
  replace (expiredAt <? now env) with false by (symmetry; apply Z.ltb_ge; lia).
  rewrite String.eqb_refl, Hsave. simpl.
  rewrite (map_ext _ (updated a consumeVerification)) by reflexivity.
  destruct (JWT_ACCESS_SECRET env) as [s|]; [destruct (truthy s)|]; simpl;
    try reflexivity.
  unfold User_findOne_populated. destruct (fails env UserFindOne); simpl;
    try reflexivity.
  destruct (find _ (users w)); reflexivity.
Qed.

(** C3.  On a request that carries an email and an OTP and whose email
    belongs to an Auth, an expiry in the past, an absent expiry or an absent
    (or empty) stored OTP makes [activate] forward Unauthorized with the
    message of the expiry test, whatever OTP the request supplies and whether
    or not it equals the stored one; nothing is written. *)
Theorem activate_checks_expiry_first (w : World) (a : Auth.t) :
  email <> "" -> verificationOTP <> "" ->
  fails env AuthFindOne = false ->
  find (by_email email) (auths w) = Some a ->
  (truthy_opt (Auth.verificationOTP a) = false
   \/ Auth.verificationOTPExpiredAt a = None
   \/ exists expiredAt,
        Auth.verificationOTPExpiredAt a = Some expiredAt /\ expiredAt < now env) ->
  activate env email verificationOTP w =
    (Next (HttpError UNAUTHORIZED "Verification OTP has expired."), w).
Proof.
  intros He Ho Hfind Ha Hexp. now apply activate_dead_otp with (a := a).
Qed.

(** C2.  With the stored OTP supplied before its expiry, [activate] saves
    the Auth verified, with the OTP emptied and the expiry removed (the
    password hash and the other fields stay), and answers OK with an access
    token when the secret is configured and the paired User is found.  A
    second [activate] with the same OTP, at any time, is refused with
    Unauthorized and writes nothing: the OTP was consumed. *)
Theorem activate_consumes_the_otp (env2 : Env) (w : World) (a : Auth.t)
        (expiredAt : Z) :
  email <> "" -> verificationOTP <> "" ->
  fails env AuthFindOne = false -> fails env AuthSave = false ->
  fails env2 AuthFindOne = false ->
  find (by_email email) (auths w) = Some a ->
  Auth.verificationOTP a = Some verificationOTP ->
  Auth.verificationOTPExpiredAt a = Some expiredAt ->
  now env <= expiredAt ->
  let out1 := fst (activate env email verificationOTP w) in
  let w1 := snd (activate env email verificationOTP w) in
  w1 = set_auths (map (updated a consumeVerification) (auths w)) w
  /\ find (by_email email) (auths w1) = Some (consumeVerification a)
  /\ Auth.isVerified (consumeVerification a) = true
  /\ Auth.verificationOTP (consumeVerification a) = Some ""
  /\ Auth.verificationOTPExpiredAt (consumeVerification a) = None
  /\ (forall accessSecret u,
        JWT_ACCESS_SECRET env = Some accessSecret -> accessSecret <> "" ->
        fails env UserFindOne = false ->
        find (by_auth (Auth._id a)) (users w) = Some u ->
        exists auth' user',
          out1 = Responded OK
                   (mkJson true "Account successfully verified."
                      [("accessToken",
                        VString (generateToken (Auth._id a) accessSecret "96h"));
                       ("auth", VAuth auth'); ("user", VUser (Some user'))])
          /\ Auth.isVerified auth' = true /\ user user' = u)
  /\ activate env2 email verificationOTP w1 =
       (Next (HttpError UNAUTHORIZED "Verification OTP has expired."), w1).
Proof.
  intros He Ho Hfind Hsave Hfind2 Ha Hotp Hexp Hnow. cbv zeta.
  rewrite (activate_live_otp_world w a expiredAt) by assumption.
  assert (Hstored : find (by_email email)
                      (auths (set_auths (map (updated a consumeVerification) (auths w)) w))
                    = Some (consumeVerification a)).
  { simpl. now apply find_by_email_updated. }
  repeat apply conj; try reflexivity.
  - exact Hstored.
  - intros accessSecret u Hs Hne Hu Hfu.
    apply truthy_iff in He. apply truthy_iff in Ho. apply truthy_iff in Hne.
    unfold activate, to_or_next, Auth_findOne_without_password, Auth_save,
      User_findOne_populated.
    rewrite He, Ho. simpl. rewrite Hfind, Ha. simpl. rewrite Hotp, Hexp. simpl.
    rewrite Ho. simpl.
    replace (expiredAt <? now env) with false by (symmetry; apply Z.ltb_ge; lia).
    rewrite String.eqb_refl, Hsave. simpl. rewrite Hs, Hne, Hu. simpl.
    rewrite Hfu. simpl. eexists _, _. repeat split.
  - apply activate_dead_otp with (a := consumeVerification a); auto.
Qed.

End ActivateFacts.

(** ** Login and Google sign-in *)

Section LoginFacts.

Context `{Libraries}.
Variable env : Env.

(** C4.  [login] tests in this order: the Auth exists (NotFound), the
    password matches (Unauthorized), the account is verified (Unauthorized),
    the account is not blocked (Forbidden).  A wrong password is answered
    with the password error whatever the verified and blocked flags are; the
    flags are looked at only once the password has matched.  No case
    writes. *)
Theorem login_checks_in_order (email password : string) (w : World) :
  fails env AuthFindOne = false ->
  (find (by_email email) (auths w) = None ->
   login env email password w =
     (Next (HttpError NOT_FOUND "No account found with the given email"), w))
  /\ (forall a hash,
        find (by_email email) (auths w) = Some a ->
        Auth.password a = Some hash ->
        (bcrypt_matches password hash = false ->
         login env email password w =
           (Next (HttpError UNAUTHORIZED "Wrong password"), w))
        /\ (bcrypt_matches password hash = true ->
            Auth.isVerified a = false ->
            login env email password w =
              (Next (HttpError UNAUTHORIZED "Verify your email first"), w))
        /\ (bcrypt_matches password hash = true ->
            Auth.isVerified a = true -> Auth.isBlocked a = true ->
            login env email password w =
              (Next (HttpError FORBIDDEN
                       "Your account had been blocked. Contact Administrator"), w))).
Proof.
  intros Hfind. unfold login, to_or_next, Auth_findOne, resolved, bcrypt_compare.
  rewrite Hfind. split.
  - intros Hnone. rewrite Hnone. reflexivity.
  - intros a hash Ha Hp. rewrite Ha. simpl. rewrite Hp.
    repeat apply conj.
    + intros Hm. rewrite Hm. reflexivity.
    + intros Hm Hv. rewrite Hm, Hv. reflexivity.
    + intros Hm Hv Hb. rewrite Hm, Hv, Hb. reflexivity.
Qed.

(** An Auth without a password hash makes [bcrypt.compare] reject, and
    [login] forwards that error. *)
Lemma login_without_hash (e : Env) (email password : string) (w : World)
      (a : Auth.t) :
  fails e AuthFindOne = false ->
  find (by_email email) (auths w) = Some a ->
  Auth.password a = None ->
  login e email password w =
    (Next (BcryptError "data and hash arguments required"), w).
Proof.
  intros Hfind Ha Hp.
  unfold login, to_or_next, Auth_findOne, resolved, bcrypt_compare.
  rewrite Hfind, Ha. simpl. rewrite Hp. reflexivity.
Qed.

Lemma issueTokens_world (a : Auth.t) (w : World) :
  snd (issueTokens env a w) = w.
Proof.
  unfold issueTokens, to_or_next, User_findOne_populated.
  destruct (secrets env) as [[s1 s2]|]; simpl; auto.
  destruct (fails env UserFindOne); reflexivity.
Qed.

Lemma issueTokens_responded (a : Auth.t) (w : World) (status : StatusCode)
      (body : Json) :
  fst (issueTokens env a w) = Responded status body ->
  exists accessSecret refreshSecret populated,
    JWT_ACCESS_SECRET env = Some accessSecret
    /\ JWT_REFRESH_SECRET env = Some refreshSecret
    /\ status = OK
    /\ body = mkJson true "Login successful"
                [("accessToken", VString (generateToken (Auth._id a) accessSecret "96h"));
                 ("refreshToken", VString (generateToken (Auth._id a) refreshSecret "96h"));
                 ("auth", VAuth a); ("user", VUser populated)].
Proof.
  unfold issueTokens, secrets, to_or_next, User_findOne_populated.
  destruct (JWT_ACCESS_SECRET env) as [s1|]; [|discriminate].
  destruct (JWT_REFRESH_SECRET env) as [s2|]; [|discriminate].
  destruct (truthy s1 && truthy s2); [|discriminate].
  destruct (fails env UserFindOne); simpl; [discriminate|].
  intros Hr. injection Hr as <- <-. eexists _, _, _. repeat split.
Qed.

Lemma issueTokens_ok (a : Auth.t) (w : World) (accessSecret refreshSecret : string) :
  JWT_ACCESS_SECRET env = Some accessSecret -> accessSecret <> "" ->
  JWT_REFRESH_SECRET env = Some refreshSecret -> refreshSecret <> "" ->
  fails env UserFindOne = false ->
  exists populated,
    fst (issueTokens env a w) =
      Responded OK
        (mkJson true "Login successful"
           [("accessToken", VString (generateToken (Auth._id a) accessSecret "96h"));
            ("refreshToken", VString (generateToken (Auth._id a) refreshSecret "96h"));
            ("auth", VAuth a); ("user", VUser populated)]).
Proof.
  intros Ha Hna Hr Hnr Hu. apply truthy_iff in Hna. apply truthy_iff in Hnr.
  unfold issueTokens, secrets, to_or_next, User_findOne_populated.
  rewrite Ha, Hr, Hna, Hnr, Hu. simpl. eexists. reflexivity.
Qed.

(** The Auth collection after [signInWithGoogle] on an unknown googleId,
    whatever happens after the Auth was created. *)
Lemma signInWithGoogle_auths (googleId name email : string) (avatar : option string)
      (w : World) :
  fails env AuthFindOne = false -> fails env AuthCreate = false ->
  find (by_googleId googleId) (auths w) = None ->
  auths (snd (signInWithGoogle env googleId name email avatar w)) =
    auths w ++ [googleAuth env googleId email].
Proof.
  intros Hfind Hcreate Hnone.
  unfold signInWithGoogle, to_or_next, Auth_findOne, Auth_create, User_create.
  rewrite Hfind, Hnone. simpl. rewrite Hcreate. simpl.
  destruct (fails env UserCreate); simpl; [reflexivity|].
  rewrite issueTokens_world. reflexivity.
Qed.

(** C5.  [signInWithGoogle] looks the Auth up by googleId.  A known identity
    is answered without a write.  An unknown one gets an Auth without a
    password and a User, written one after the other outside any
    transaction: when the second write is rejected the Auth stays without
    its User.  A first sign-in that both writes went through, like a later
    one, is answered OK with an access and a refresh token for the Auth's
    id, whenever both secrets are configured and the User lookup is not
    rejected; this is so for every value of the verified and blocked flags,
    which the handler does not read.  Whenever a response is sent it is that
    one, for the Auth that was found or created. *)
Theorem signInWithGoogle_has_no_gate (googleId name email : string)
        (avatar : option string) (w : World) :
  let out := fst (signInWithGoogle env googleId name email avatar w) in
  let w' := snd (signInWithGoogle env googleId name email avatar w) in
  (forall a,
     fails env AuthFindOne = false ->
     find (by_googleId googleId) (auths w) = Some a ->
     w' = w
     /\ forall accessSecret refreshSecret,
         JWT_ACCESS_SECRET env = Some accessSecret -> accessSecret <> "" ->
         JWT_REFRESH_SECRET env = Some refreshSecret -> refreshSecret <> "" ->
         fails env UserFindOne = false ->
         exists populated,
           out = Responded OK
                   (mkJson true "Login successful"
                      [("accessToken",
                        VString (generateToken (Auth._id a) accessSecret "96h"));
                       ("refreshToken",
                        VString (generateToken (Auth._id a) refreshSecret "96h"));
                       ("auth", VAuth a); ("user", VUser populated)]))
  /\ (fails env AuthFindOne = false ->
      find (by_googleId googleId) (auths w) = None ->
      (fails env AuthCreate = true -> out = Next (StoreError AuthCreate) /\ w' = w)
      /\ (fails env AuthCreate = false ->
          Auth.password (googleAuth env googleId email) = None
          /\ auths w' = auths w ++ [googleAuth env googleId email]
          /\ outbox w' = outbox w
          /\ (fails env UserCreate = true ->
              out = Next (StoreError UserCreate) /\ users w' = users w)
          /\ (fails env UserCreate = false ->
              users w' = users w ++ [googleUser env name avatar])))
  /\ (forall status body,
        out = Responded status body ->
        exists a accessSecret refreshSecret populated,
          (find (by_googleId googleId) (auths w) = Some a
           \/ (find (by_googleId googleId) (auths w) = None
               /\ a = googleAuth env googleId email))
          /\ JWT_ACCESS_SECRET env = Some accessSecret
          /\ JWT_REFRESH_SECRET env = Some refreshSecret
          /\ status = OK
          /\ body = mkJson true "Login successful"
                      [("accessToken",
                        VString (generateToken (Auth._id a) accessSecret "96h"));
                       ("refreshToken",
                        VString (generateToken (Auth._id a) refreshSecret "96h"));
                       ("auth", VAuth a); ("user", VUser populated)])
  /\ (forall accessSecret refreshSecret,
        fails env AuthFindOne = false ->
        find (by_googleId googleId) (auths w) = None ->
        fails env AuthCreate = false -> fails env UserCreate = false ->
        JWT_ACCESS_SECRET env = Some accessSecret -> accessSecret <> "" ->
        JWT_REFRESH_SECRET env = Some refreshSecret -> refreshSecret <> "" ->
        fails env UserFindOne = false ->
        Auth._id (googleAuth env googleId email) = newAuthId env
        /\ Auth.isVerified (googleAuth env googleId email) = false
        /\ (exists u, find (by_auth (newAuthId env)) (users w') = Some u)
        /\ out = Responded OK
                   (mkJson true "Login successful"
                      [("accessToken",
                        VString (generateToken (newAuthId env) accessSecret "96h"));
                       ("refreshToken",
                        VString (generateToken (newAuthId env) refreshSecret "96h"));
                       ("auth", VAuth (googleAuth env googleId email));
                       ("user",
                        VUser (option_map (populate w')
                                 (find (by_auth (newAuthId env)) (users w'))))])).
Proof.
  cbv zeta. unfold signInWithGoogle, to_or_next, Auth_findOne, Auth_create, User_create.
  repeat apply conj.
  - intros a Hfind Ha. rewrite Hfind, Ha. simpl. split.
    + apply issueTokens_world.
    + intros s1 s2 H1 Hn1 H2 Hn2 Hu.
      destruct (issueTokens_ok a w s1 s2 H1 Hn1 H2 Hn2 Hu) as [p Hp].
      exists p. exact Hp.
  - intros Hfind Hnone. rewrite Hfind, Hnone. simpl. split.
    + intros Hc. rewrite Hc. simpl. now destruct w.
    + intros Hc. rewrite Hc. simpl. repeat apply conj; try reflexivity.
      * destruct (fails env UserCreate); simpl; [reflexivity|].
        now rewrite issueTokens_world.
      * destruct (fails env UserCreate); simpl; [reflexivity|].
        now rewrite issueTokens_world.
      * intros Hu. rewrite Hu. simpl. split; reflexivity.
      * intros Hu. rewrite Hu. simpl. now rewrite issueTokens_world.
  - intros status body.
    destruct (fails env AuthFindOne); simpl; [discriminate|].
    destruct (find (by_googleId googleId) (auths w)) as [a|]; simpl.
    + intros Hr. exists a.
      destruct (issueTokens_responded _ _ _ _ Hr) as (s1 & s2 & p & Hrest).
      exists s1, s2, p. split; [now left|exact Hrest].
    + destruct (fails env AuthCreate); simpl; [discriminate|].
      destruct (fails env UserCreate); simpl; [discriminate|].
      intros Hr. exists (googleAuth env googleId email).
      destruct (issueTokens_responded _ _ _ _ Hr) as (s1 & s2 & p & Hrest).
      exists s1, s2, p. split; [now right|exact Hrest].
  - intros s1 s2 Hfind Hnone Hca Hcu H1 Hn1 H2 Hn2 Hu.
    apply truthy_iff in Hn1. apply truthy_iff in Hn2.
    rewrite Hfind, Hnone. simpl. rewrite Hca. simpl. rewrite Hcu. simpl.
    unfold issueTokens, secrets, to_or_next, User_findOne_populated.
    rewrite H1, H2, Hn1, Hn2. simpl. rewrite Hu. simpl.
    repeat apply conj; try reflexivity.
    apply (find_app_last (by_auth (newAuthId env)) (users w) (googleUser env name avatar)).
    unfold by_auth. simpl. apply Nat.eqb_refl.
Qed.

(** C10.  After [signInWithGoogle] has created the Auth of an unknown
    googleId, with an email no Auth had, [login] with that email finds this
    Auth, which has no password hash: [bcrypt.compare] rejects, [login]
    forwards the rejection, and the error handler answers it as an internal
    server error, not as Unauthorized or NotFound. *)
Theorem login_of_google_identity_is_server_error (env2 : Env)
        (googleId name email : string) (avatar : option string)
        (password : string) (w : World) :
  fails env AuthFindOne = false -> fails env AuthCreate = false ->
  find (by_googleId googleId) (auths w) = None ->
  find (by_email email) (auths w) = None ->
  fails env2 AuthFindOne = false ->
  let w1 := snd (signInWithGoogle env googleId name email avatar w) in
  exists a error,
    find (by_email email) (auths w1) = Some a
    /\ Auth.googleId a = Some googleId /\ Auth.password a = None
    /\ login env2 email password w1 = (Next error, w1)
    /\ error = BcryptError "data and hash arguments required"
    /\ errorStatus error = INTERNAL_SERVER_ERROR
    /\ (forall m, error <> HttpError UNAUTHORIZED m)
    /\ (forall m, error <> HttpError NOT_FOUND m).
Proof.
  intros Hfind Hcreate Hg He Hfind2. cbv zeta.
  assert (Ha : find (by_email email)
                 (auths (snd (signInWithGoogle env googleId name email avatar w)))
               = Some (googleAuth env googleId email)).
  { rewrite signInWithGoogle_auths by assumption.
    rewrite find_app_none by assumption. simpl.
    unfold by_email. simpl. now rewrite String.eqb_refl. }
  exists (googleAuth env googleId email), (BcryptError "data and hash arguments required").
  repeat apply conj; try reflexivity; try (intros m; discriminate).
  - exact Ha.
  - now apply login_without_hash with (a := googleAuth env googleId email).
Qed.

End LoginFacts.

(** ** Passwords *)

Section PasswordFacts.

Context `{Libraries}.
Variable env : Env.
Variable user : DecodedUser.

Lemma resetPassword_mismatch_writes_nothing (password confirmPassword : string)
      (w : World) :
  password <> confirmPassword ->
  snd (resetPassword env user password confirmPassword w) = w.
Proof.
  intros Hne. apply String.eqb_neq in Hne.
  unfold resetPassword, to_or_next, Auth_findOne.
  destruct (fails env AuthFindOne); simpl; [reflexivity|].
  destruct (find _ _); simpl; [|reflexivity]. rewrite Hne. reflexivity.
Qed.

(** C8.  When the two fields of a [resetPassword] request differ, the request
    fails and nothing is written, so every stored hash is what it was; for
    an identity whose Auth is found the error forwarded is BadRequest.  When
    they agree (and the Auth is found and the save is not rejected) the
    password stored for the Auth is the bcrypt hash of the new password, its
    other fields and the other documents are kept, and the response is
    OK. *)
Theorem resetPassword_compares_the_two_fields (password confirmPassword : string)
        (w : World) :
  let out := fst (resetPassword env user password confirmPassword w) in
  let w' := snd (resetPassword env user password confirmPassword w) in
  (password <> confirmPassword ->
   w' = w /\ hashes w' = hashes w
   /\ (exists error, out = Next error)
   /\ forall a,
       fails env AuthFindOne = false ->
       find (by_email (decodedEmail user)) (auths w) = Some a ->
       out = Next (HttpError BAD_REQUEST "Passwords don't match"))
  /\ (password = confirmPassword ->
      forall a,
        fails env AuthFindOne = false ->
        find (by_email (decodedEmail user)) (auths w) = Some a ->
        fails env AuthSave = false ->
        out = Responded OK (mkJson true "Password reset successful" [])
        /\ auths w' =
             map (updated a (rehash (bcrypt_hash (salt env) password))) (auths w)
        /\ find (by_email (decodedEmail user)) (auths w') =
             Some (rehash (bcrypt_hash (salt env) password) a)
        /\ users w' = users w /\ outbox w' = outbox w
        /\ Auth.password (rehash (bcrypt_hash (salt env) password) a)
           = Some (bcrypt_hash (salt env) password)
        /\ same_identity a (rehash (bcrypt_hash (salt env) password) a)
        /\ hashes w' =
             map (fun stored =>
                    (Auth._id stored,
                     if (Auth._id stored =? Auth._id a)%nat
                     then Some (bcrypt_hash (salt env) password)
                     else Auth.password stored))
                 (auths w)).
Proof.
  cbv zeta. split.
  - intros Hne. rewrite resetPassword_mismatch_writes_nothing by assumption.
    apply String.eqb_neq in Hne.
    unfold resetPassword, to_or_next, Auth_findOne.
    repeat apply conj; try reflexivity.
    + destruct (fails env AuthFindOne); simpl; [eauto|].
      destruct (find _ _); simpl; [|eauto]. rewrite Hne. simpl. eauto.
    + intros a Hfind Ha. rewrite Hfind, Ha. simpl. rewrite Hne. reflexivity.
  - intros <- a Hfind Ha Hsave.
    unfold resetPassword, to_or_next, await, Auth_findOne, Auth_save.
    rewrite Hfind, Ha. simpl.
    rewrite String.eqb_refl, Hsave. simpl.
    rewrite (map_ext _ (updated a (rehash (bcrypt_hash (salt env) password))))
      by reflexivity.
    repeat apply conj; try reflexivity.
    + now apply find_by_email_updated.
    + unfold hashes. simpl. rewrite map_map. apply map_ext. intros stored.
      unfold updated. destruct (_ =? _)%nat; reflexivity.
Qed.

(** C7.  When the old password of a [changePassword] request does not match
    the stored hash, Unauthorized is forwarded and nothing is written.  The
    confirmation field plays no part: the handler does the same for every
    value of it, and an old password that matches gets the hash replaced by
    the hash of the new password whatever the confirmation says. *)
Theorem changePassword_wrong_old_password (password newPassword confirmPassword : string)
        (w : World) (a : Auth.t) (hash : string) :
  fails env AuthFindById = false ->
  find (by_id (authId user)) (auths w) = Some a ->
  Auth.password a = Some hash ->
  (bcrypt_matches password hash = false ->
   changePassword env user password newPassword confirmPassword w =
     (Next (HttpError UNAUTHORIZED "Wrong Password"), w)
   /\ hashes (snd (changePassword env user password newPassword confirmPassword w))
      = hashes w)
  /\ (forall otherConfirm,
        changePassword env user password newPassword otherConfirm w =
        changePassword env user password newPassword confirmPassword w)
  /\ (bcrypt_matches password hash = true -> fails env AuthSave = false ->
      fst (changePassword env user password newPassword confirmPassword w) =
        Responded OK (mkJson true "Passowrd changed successfully" [])
      /\ find (by_id (authId user))
              (auths (snd (changePassword env user password newPassword
                             confirmPassword w))) =
           Some (rehash (bcrypt_hash (salt env) newPassword) a)).
Proof.
  intros Hfind Ha Hp.
  unfold changePassword, to_or_next, await, Auth_findById, Auth_save, resolved,
    bcrypt_compare.
  rewrite Hfind, Ha. simpl. rewrite Hp. repeat apply conj.
  - intros Hm. rewrite Hm. split; reflexivity.
  - reflexivity.
  - intros Hm Hsave. rewrite Hm, Hsave. simpl. split; [reflexivity|].
    rewrite (map_ext _ (updated a (rehash (bcrypt_hash (salt env) newPassword))))
      by reflexivity.
    now apply find_by_id_updated.
Qed.

End PasswordFacts.

(** ** Resending an OTP *)

Section ResendFacts.

Context `{Libraries}.
Variable env : Env.
Variable email : string.

(** C6.  For an email that belongs to an Auth: an activation method on a
    verified account is answered with status Conflict and success flag true,
    and nothing is written or sent.  Otherwise the OTP of the method's kind
    becomes the fresh one, expiring 60 seconds from now, it is saved, and it
    is sent by email (email-activation, email-recovery) or by SMS to the
    phone number of the paired User (phone-activation), which is loaded
    before anything is saved.  The stored OTP and the stored expiry are
    given field by field, and every other field is kept.  For each of the
    three members of [Method] one of the branches is taken. *)
Theorem resendOTP_reissues_unless_verified (method : Method) (w : World) (a : Auth.t) :
  fails env AuthFindOne = false ->
  find (by_email email) (auths w) = Some a ->
  let out := fst (resendOTP env method email w) in
  let w' := snd (resendOTP env method email w) in
  let otp := generateOTP env in
  let expiry := now env + 60 * 1000 in
  (method = emailActivation \/ method = phoneActivation ->
   Auth.isVerified a = true ->
   out = Responded CONFLICT
           (mkJson true "Your account is already verified. Please login."
              [("isVerified", VBool true)])
   /\ statusNumber CONFLICT = 409 /\ w' = w)
  /\ (method = emailActivation -> Auth.isVerified a = false ->
      fails env AuthSave = false ->
      out = Responded OK
              (mkJson true "OTP resend successful"
                 [("isVerified", VBool false); ("verificationOTP", VOptString (Some otp))])
      /\ find (by_email email) (auths w') =
           Some (reissueVerification otp expiry a)
      /\ users w' = users w
      /\ outbox w' = outbox w ++ [Email email otp]
      /\ Auth.verificationOTP (reissueVerification otp expiry a) = Some otp
      /\ Auth.verificationOTPExpiredAt (reissueVerification otp expiry a)
         = Some (now env + 60 * 1000)
      /\ same_but_verificationOTP a (reissueVerification otp expiry a))
  /\ (method = phoneActivation -> Auth.isVerified a = false ->
      (fails env UserFindOne = true ->
       out = Next (StoreError UserFindOne) /\ w' = w)
      /\ (forall u,
            fails env UserFindOne = false ->
            find (by_auth (Auth._id a)) (users w) = Some u ->
            fails env AuthSave = false ->
            out = Responded OK
                    (mkJson true "OTP resend successful"
                       [("isVerified", VBool false);
                        ("verificationOTP", VOptString (Some otp))])
            /\ find (by_email email) (auths w') =
                 Some (reissueVerification otp expiry a)
            /\ users w' = users w
            /\ outbox w' = outbox w ++ [SMS (User.phoneNumber u) otp]
            /\ Auth.verificationOTP (reissueVerification otp expiry a) = Some otp
            /\ Auth.verificationOTPExpiredAt (reissueVerification otp expiry a)
               = Some (now env + 60 * 1000)
            /\ same_but_verificationOTP a (reissueVerification otp expiry a)))
  /\ (method = emailRecovery -> fails env AuthSave = false ->
      out = Responded OK
              (mkJson true "OTP resend successful"
                 [("recoveryOTP", VOptString (Some otp))])
      /\ find (by_email email) (auths w') =
           Some (reissueRecovery otp expiry a)
      /\ users w' = users w
      /\ outbox w' = outbox w ++ [Email email otp]
      /\ Auth.recoveryOTP (reissueRecovery otp expiry a) = Some otp
      /\ Auth.recoveryOTPExpiredAt (reissueRecovery otp expiry a)
         = Some (now env + 60 * 1000)
      /\ same_but_recoveryOTP a (reissueRecovery otp expiry a))
  /\ out <> NoResponse.
Proof.
  intros Hfind Ha. cbv zeta.
  unfold resendOTP, to_or_next, await, Auth_findOne, Auth_save, User_findOne,
    sendEmail, sendSMS.
  rewrite Hfind, Ha. simpl.
  repeat apply conj.
  - intros [-> | ->] Hv; rewrite Hv; simpl; repeat split.
  - intros -> Hv Hs. rewrite Hv, Hs. simpl.
    rewrite (map_ext _ (updated a (reissueVerification (generateOTP env)
                                     (now env + 60 * 1000))))
      by reflexivity.
    repeat apply conj; try reflexivity.
    now apply find_by_email_updated.
  - intros -> Hv. rewrite Hv. simpl. split;
      [intros Hu; rewrite Hu; simpl; split; reflexivity|].
    intros u Hu Hfu Hs. rewrite Hu. simpl. rewrite Hfu, Hs. simpl.
    rewrite (map_ext _ (updated a (reissueVerification (generateOTP env)
                                     (now env + 60 * 1000))))
      by reflexivity.
    repeat apply conj; try reflexivity.
    now apply find_by_email_updated.
  - intros -> Hs. simpl. rewrite Hs. simpl.
    rewrite (map_ext _ (updated a (reissueRecovery (generateOTP env)
                                     (now env + 60 * 1000))))
      by reflexivity.
    repeat apply conj; try reflexivity.
    now apply find_by_email_updated.
  - destruct method, (Auth.isVerified a); simpl; try discriminate;
      destruct (fails env AuthSave); simpl; try discriminate;
      destruct (fails env UserFindOne); simpl; try discriminate;
      destruct (find _ (users w)); discriminate.
Qed.

End ResendFacts.

(** ** Recovery *)

Lemma same_but_recoveryOTP_refl (a : Auth.t) : same_but_recoveryOTP a a.
Proof. unfold same_but_recoveryOTP. repeat split. Qed.

Lemma same_but_recoveryOTP_updated (a : Auth.t) (f : Auth.t -> Auth.t)
      (stored : Auth.t) :
  (forall s, same_but_recoveryOTP s (f s)) ->
  same_but_recoveryOTP stored (updated a f stored).
Proof.
  intros Hf. unfold updated. destruct (_ =? _)%nat; auto using same_but_recoveryOTP_refl.
Qed.

Lemma same_but_recoveryOTP_reissue (otp : string) (expiry : Z) (s : Auth.t) :
  same_but_recoveryOTP s (reissueRecovery otp expiry s).
Proof. unfold same_but_recoveryOTP. simpl. repeat split. Qed.

Lemma same_but_recoveryOTP_consume (s : Auth.t) :
  same_but_recoveryOTP s (consumeRecovery s).
Proof. unfold same_but_recoveryOTP. simpl. repeat split. Qed.

Section RecoveryFacts.

Variable env : Env.
Variable email : string.

(** What a [recovery] that finds the Auth and saves it gives. *)
Lemma recovery_run (e : Env) (w : World) (a : Auth.t) :
  fails e AuthFindOne = false -> fails e AuthSave = false ->
  find (by_email email) (auths w) = Some a ->
  recovery e email w =
    (Responded OK
       (mkJson true "Success" [("recoveryOTP", VOptString (Some (generateOTP e)))]),
     mkWorld (map (updated a (reissueRecovery (generateOTP e) (now e + 60 * 1000)))
                  (auths w))
             (users w) (outbox w ++ [Email email (generateOTP e)])).
Proof.
  intros Hfind Hsave Ha.
  unfold recovery, to_or_next, await, Auth_findOne, Auth_save, sendEmail.
  rewrite Hfind, Ha. simpl. rewrite Hsave. simpl.
  rewrite (map_ext _ (updated a (reissueRecovery (generateOTP e)
                                   (now e + 60 * 1000)))) by reflexivity.
  reflexivity.
Qed.

(** X1.  [recovery] has no gate: for every Auth the email finds, verified
    or not, blocked or not, it stores the fresh OTP with an expiry 60 seconds
    from now, changes nothing else in any Auth or User, sends the OTP by
    email and echoes it in the OK response. *)
Theorem recovery_issues_for_any_account (w : World) (a : Auth.t) :
  fails env AuthFindOne = false -> fails env AuthSave = false ->
  find (by_email email) (auths w) = Some a ->
  let otp := generateOTP env in
  let expiry := now env + 60 * 1000 in
  let w' := snd (recovery env email w) in
  fst (recovery env email w) =
    Responded OK (mkJson true "Success" [("recoveryOTP", VOptString (Some otp))])
  /\ auths w' = map (updated a (reissueRecovery otp expiry)) (auths w)
  /\ find (by_email email) (auths w') = Some (reissueRecovery otp expiry a)
  /\ Forall2 same_but_recoveryOTP (auths w) (auths w')
  /\ users w' = users w
  /\ outbox w' = outbox w ++ [Email email otp].
Proof.
  intros Hfind Hsave Ha. cbv zeta.
  rewrite (recovery_run env w a) by assumption. simpl.
  repeat apply conj; try reflexivity.
  - now apply find_by_email_updated.
  - apply Forall2_map_same. intros s.
    apply same_but_recoveryOTP_updated, same_but_recoveryOTP_reissue.
Qed.

(** The world and the answer of [recoveryVerify] when the stored OTP is
    supplied in time. *)
Lemma recoveryVerify_live_otp (e : Env) (recoveryOTP : string) (w : World)
      (a : Auth.t) (expiredAt : Z) :
  email <> "" -> recoveryOTP <> "" ->
  fails e AuthFindOne = false -> fails e AuthSave = false ->
  find (by_email email) (auths w) = Some a ->
  Auth.recoveryOTP a = Some recoveryOTP ->
  Auth.recoveryOTPExpiredAt a = Some expiredAt ->
  now e <= expiredAt ->
  recoveryVerify e email recoveryOTP w =
    (Responded OK (mkJson true "Email successfully verified." []),
     set_auths (map (updated a consumeRecovery) (auths w)) w).
Proof.
  intros He Ho Hfind Hsave Ha Hotp Hexp Hnow.
  apply truthy_iff in He. apply truthy_iff in Ho.
  unfold recoveryVerify, to_or_next, Auth_findOne_without_password, Auth_save.
  rewrite He, Ho. simpl. rewrite Hfind, Ha. simpl. rewrite Hotp, Hexp. simpl.
  replace (expiredAt <? now e) with false by (symmetry; apply Z.ltb_ge; lia).
  rewrite String.eqb_refl, Hsave. simpl.
  rewrite (map_ext _ (updated a consumeRecovery)) by reflexivity.
  reflexivity.
Qed.

(** An OTP other than the stored one is refused, and nothing is written. *)
Lemma recoveryVerify_refuses_other_otp (e : Env) (recoveryOTP : string) (w : World)
      (a : Auth.t) :
  email <> "" -> recoveryOTP <> "" ->
  fails e AuthFindOne = false ->
  find (by_email email) (auths w) = Some a ->
  Auth.recoveryOTP a <> Some recoveryOTP ->
  exists msg,
    recoveryVerify e email recoveryOTP w = (Next (HttpError UNAUTHORIZED msg), w).
Proof.
  intros He Ho Hfind Ha Hne.
  apply truthy_iff in He. apply truthy_iff in Ho.
  unfold recoveryVerify, to_or_next, Auth_findOne_without_password.
  rewrite He, Ho. simpl. rewrite Hfind, Ha. simpl.
  destruct (date_gt _ _); [eexists; reflexivity|].
  destruct (Auth.recoveryOTP a) as [stored|]; simpl; [|eexists; reflexivity].
  destruct (String.eqb_spec recoveryOTP stored) as [->|Hd]; simpl.
  - now destruct Hne.
  - eexists; reflexivity.
Qed.

(** X3.  The OTP [recovery] issues is accepted by [recoveryVerify] up to 60
    seconds later: the answer is OK without any token, the stored OTP is
    emptied and its expiry removed, and nothing else changes.  The same OTP
    is refused with Unauthorized from then on, at any time. *)
Theorem recovery_then_recoveryVerify (env2 env3 : Env) (w : World) (a : Auth.t) :
  email <> "" -> generateOTP env <> "" ->
  fails env AuthFindOne = false -> fails env AuthSave = false ->
  fails env2 AuthFindOne = false -> fails env2 AuthSave = false ->
  fails env3 AuthFindOne = false ->
  find (by_email email) (auths w) = Some a ->
  now env2 <= now env + 60 * 1000 ->
  let otp := generateOTP env in
  let w1 := snd (recovery env email w) in
  let w2 := snd (recoveryVerify env2 email otp w1) in
  fst (recoveryVerify env2 email otp w1) =
    Responded OK (mkJson true "Email successfully verified." [])
  /\ find (by_email email) (auths w2) =
       Some (consumeRecovery (reissueRecovery otp (now env + 60 * 1000) a))
  /\ Forall2 same_but_recoveryOTP (auths w) (auths w2)
  /\ users w2 = users w
  /\ exists msg,
       recoveryVerify env3 email otp w2 = (Next (HttpError UNAUTHORIZED msg), w2).
Proof.
  intros He Ho Hf1 Hs1 Hf2 Hs2 Hf3 Ha Hnow.
  cbv zeta. rewrite (recovery_run env w a) by assumption. simpl.
  rewrite (recoveryVerify_live_otp env2 (generateOTP env) _
             (reissueRecovery (generateOTP env) (now env + 60 * 1000) a)
             (now env + 60 * 1000)); auto;
    try (simpl; now apply find_by_email_updated).
  simpl.
  assert (Hstored : find (by_email email)
            (map (updated (reissueRecovery (generateOTP env) (now env + 60 * 1000) a)
                    consumeRecovery)
               (map (updated a (reissueRecovery (generateOTP env) (now env + 60 * 1000)))
                  (auths w)))
          = Some (consumeRecovery
                    (reissueRecovery (generateOTP env) (now env + 60 * 1000) a))).
  { apply find_by_email_updated; [reflexivity|].
    now apply find_by_email_updated. }
  repeat apply conj; try reflexivity.
  - exact Hstored.
  - rewrite map_map. apply Forall2_map_same. intros s.
    unfold updated at 2. destruct (Auth._id s =? Auth._id a)%nat eqn:Eid.
    + unfold updated. simpl. rewrite Eid.
      unfold same_but_recoveryOTP. simpl. repeat split.
    + unfold updated. simpl. rewrite Eid. apply same_but_recoveryOTP_refl.
  - apply recoveryVerify_refuses_other_otp with
      (a := consumeRecovery (reissueRecovery (generateOTP env) (now env + 60 * 1000) a));
      auto.
    simpl. intros Heq. injection Heq as Heq. now symmetry in Heq.
Qed.

End RecoveryFacts.

Section RecoveryWindow.

Variable email : string.

(** X4.  Once 60 seconds have passed since [recovery], [recoveryVerify]
    refuses the OTP it issued with Unauthorized, although it is the stored
    one, and leaves it stored. *)
Theorem recovery_otp_expires_after_a_minute (env env2 : Env) (w : World) (a : Auth.t) :
  email <> "" -> generateOTP env <> "" ->
  fails env AuthFindOne = false -> fails env AuthSave = false ->
  fails env2 AuthFindOne = false ->
  find (by_email email) (auths w) = Some a ->
  now env + 60 * 1000 < now env2 ->
  let w1 := snd (recovery env email w) in
  Auth.recoveryOTP (reissueRecovery (generateOTP env) (now env + 60 * 1000) a)
    = Some (generateOTP env)
  /\ find (by_email email) (auths w1)
     = Some (reissueRecovery (generateOTP env) (now env + 60 * 1000) a)
  /\ recoveryVerify env2 email (generateOTP env) w1 =
       (Next (HttpError UNAUTHORIZED "Recovery OTP has expired."), w1).
Proof.
  intros He Ho Hf1 Hs1 Hf2 Ha Hlate. cbv zeta.
  rewrite (recovery_run email env w a) by assumption. simpl.
  assert (Hstored : find (by_email email)
            (map (updated a (reissueRecovery (generateOTP env) (now env + 60 * 1000)))
               (auths w))
          = Some (reissueRecovery (generateOTP env) (now env + 60 * 1000) a)).
  { now apply find_by_email_updated. }
  repeat apply conj; try reflexivity; [exact Hstored|].
  apply truthy_iff in He. apply truthy_iff in Ho.
  unfold recoveryVerify, to_or_next, Auth_findOne_without_password.
  rewrite He, Ho. simpl. rewrite Hf2.
  change (find (by_email email)
            (map (updated a (reissueRecovery (generateOTP env) (now env + 60000)))
               (auths w)))
    with (find (by_email email)
            (map (updated a (reissueRecovery (generateOTP env) (now env + 60 * 1000)))
               (auths w))).
  rewrite Hstored. simpl.
  replace (now env + 60000 <? now env2) with true
    by (symmetry; apply Z.ltb_lt; lia).
  reflexivity.
Qed.

(** [recoveryVerify] writes only when the OTP of the request is the stored
    one; otherwise it forwards an error. *)
Lemma recoveryVerify_miss (e : Env) (guess : string) (w : World) (a : Auth.t) :
  find (by_email email) (auths w) = Some a ->
  Auth.recoveryOTP a <> Some guess ->
  exists error, recoveryVerify e email guess w = (Next error, w).
Proof.
  intros Ha Hne.
  unfold recoveryVerify, to_or_next, Auth_findOne_without_password.
  destruct (negb (truthy email) || negb (truthy guess)); [eexists; reflexivity|].
  destruct (fails e AuthFindOne); [eexists; reflexivity|].
  rewrite Ha. simpl.
  destruct (date_gt _ _); [eexists; reflexivity|].
  destruct (Auth.recoveryOTP a) as [stored|]; simpl; [|eexists; reflexivity].
  destruct (String.eqb_spec guess stored) as [->|Hd]; simpl.
  - now destruct Hne.
  - eexists; reflexivity.
Qed.

(** X5.  [recoveryVerify] does not count attempts: after any series of
    requests with OTPs other than the stored one, at any times, every one of
    them has been answered with an error and the world is what it was, so
    the stored OTP is still the one to give. *)
Theorem recoveryVerify_wrong_guesses_change_nothing
        (attempts : list (Env * string)) (w : World) (a : Auth.t) :
  find (by_email email) (auths w) = Some a ->
  Forall (fun attempt => Auth.recoveryOTP a <> Some (snd attempt)) attempts ->
  after_guesses (fun e guess => recoveryVerify e email guess) attempts w = w
  /\ Forall (fun attempt =>
               exists error,
                 fst (recoveryVerify (fst attempt) email (snd attempt) w) = Next error)
            attempts.
Proof.
  intros Ha Hall. unfold after_guesses.
  induction Hall as [|[e guess] attempts Hne _ IH]; simpl.
  - split; [reflexivity|constructor].
  - simpl in Hne. destruct (recoveryVerify_miss e guess w a Ha Hne) as [error Hr].
    rewrite Hr. simpl. destruct IH as [IHw IHo]. split; [exact IHw|].
    constructor; [|exact IHo]. simpl. rewrite Hr. exists error. reflexivity.
Qed.

End RecoveryWindow.

(** ** Saves that are awaited without a handler *)

Section UncaughtSave.

Context `{Libraries}.
Variable env : Env.

(** X2.  [recovery], [resetPassword] and [changePassword] await [auth.save()]
    outside [to]: when the save is rejected the error is not passed to
    [next]; the handler's promise is rejected, no response is sent, and
    nothing was written or sent. *)
Theorem rejected_save_is_not_forwarded :
  fails env AuthSave = true ->
  (forall email w a,
     fails env AuthFindOne = false ->
     find (by_email email) (auths w) = Some a ->
     recovery env email w = (Rejected (StoreError AuthSave), w))
  /\ (forall user password w a,
        fails env AuthFindOne = false ->
        find (by_email (decodedEmail user)) (auths w) = Some a ->
        resetPassword env user password password w =
          (Rejected (StoreError AuthSave), w))
  /\ (forall user password newPassword confirmPassword w a hash,
        fails env AuthFindById = false ->
        find (by_id (authId user)) (auths w) = Some a ->
        Auth.password a = Some hash ->
        bcrypt_matches password hash = true ->
        changePassword env user password newPassword confirmPassword w =
          (Rejected (StoreError AuthSave), w)).
Proof.
  intros Hsave. repeat apply conj.
  - intros email w a Hfind Ha.
    unfold recovery, to_or_next, await, Auth_findOne, Auth_save.
    rewrite Hfind, Ha. simpl. rewrite Hsave. reflexivity.
  - intros user password w a Hfind Ha.
    unfold resetPassword, to_or_next, await, Auth_findOne, Auth_save.
    rewrite Hfind, Ha. simpl. rewrite String.eqb_refl, Hsave. reflexivity.
  - intros user password newPassword confirmPassword w a hash Hfind Ha Hp Hm.
    unfold changePassword, to_or_next, await, Auth_findById, Auth_save, resolved,
      bcrypt_compare.
    rewrite Hfind, Ha. simpl. rewrite Hp, Hm. simpl. rewrite Hsave. reflexivity.
Qed.

End UncaughtSave.

(** ** Removing an account *)

Lemma delete_first_none {A : Type} (p : A -> bool) (l : list A) :
  find p l = None -> delete_first p l = l.
Proof.
  induction l as [|x l IH]; simpl; auto.
  destruct (p x); [discriminate|]. intros Hf. now rewrite IH.
Qed.

Lemma delete_first_length {A : Type} (p : A -> bool) (l : list A) (x : A) :
  find p l = Some x -> S (length (delete_first p l)) = length l.
Proof.
  induction l as [|y l IH]; simpl; [discriminate|].
  destruct (p y); [reflexivity|]. intros Hf. simpl. now rewrite IH.
Qed.

Lemma delete_first_keeps {A : Type} (p : A -> bool) (l : list A) (x : A) :
  In x l -> p x = false -> In x (delete_first p l).
Proof.
  induction l as [|y l IH]; simpl; auto.
  intros [-> | Hin] Hp.
  - rewrite Hp. now left.
  - destruct (p y); [exact Hin|]. right. now apply IH.
Qed.

Lemma find_by_email_absent (e : string) (l : list Auth.t) :
  ~ In e (map Auth.email l) -> find (by_email e) l = None.
Proof.
  induction l as [|x l IH]; simpl; auto.
  intros Hnot. unfold by_email at 1.
  destruct (String.eqb_spec (Auth.email x) e) as [Heq|Hne].
  - destruct Hnot. now left.
  - apply IH. intros Hin. apply Hnot. now right.
Qed.

(** With unique emails, deleting the Auth an id finds leaves no Auth with
    its email. *)
Lemma delete_first_by_id_email (i : nat) (l : list Auth.t) (a : Auth.t) :
  NoDup (map Auth.email l) ->
  find (by_id i) l = Some a ->
  find (by_email (Auth.email a)) (delete_first (by_id i) l) = None.
Proof.
  induction l as [|x l IH]; simpl; [discriminate|].
  intros Hnd Hf. inversion Hnd as [|? ? Hnotin Hnd']; subst.
  destruct (by_id i x) eqn:Ex.
  - injection Hf as <-. now apply find_by_email_absent.
  - simpl. unfold by_email at 1.
    destruct (String.eqb_spec (Auth.email x) (Auth.email a)) as [Heq|Hne].
    + destruct Hnotin. rewrite Heq. apply in_map.
      now destruct (find_some _ _ Hf).
    + now apply IH.
Qed.

Section RemoveFacts.

Variable d : Deletes.
Variable user : DecodedUser.

(** X6.  [remove] is not atomic: the two deletions run independently.  When
    the deletion of the Auth is rejected and that of the User is not, the
    error is forwarded and yet the User is gone while every Auth stays; and
    the other way round. *)
Theorem remove_is_not_atomic (w : World) (e : Error) :
  (rejection d AuthFindByIdAndDelete = Some e ->
   rejection d UserFindByIdAndDelete = None ->
   remove d user w =
     (Next e, set_users (delete_first (by_user_id (userId user)) (users w)) w)
   /\ forall u, find (by_user_id (userId user)) (users w) = Some u ->
        S (length (users (snd (remove d user w)))) = length (users w)
        /\ auths (snd (remove d user w)) = auths w)
  /\ (rejection d AuthFindByIdAndDelete = None ->
      rejection d UserFindByIdAndDelete = Some e ->
      remove d user w =
        (Next e, set_auths (delete_first (by_id (authId user)) (auths w)) w)
      /\ forall a, find (by_id (authId user)) (auths w) = Some a ->
           S (length (auths (snd (remove d user w)))) = length (auths w)
           /\ users (snd (remove d user w)) = users w).
Proof.
  unfold remove, Auth_findByIdAndDelete, User_findByIdAndDelete, Promise_all, next.
  split; intros H1 H2; rewrite H1, H2; simpl.
  - split; [reflexivity|]. intros u Hu. split; [|reflexivity].
    now apply delete_first_length with (x := u).
  - split; [reflexivity|]. intros a Ha. split; [|reflexivity].
    now apply delete_first_length with (x := a).
Qed.

(** X7.  [remove] does not look at what the deletions found: for an
    identity whose Auth and User are both missing, it answers OK, "User
    Removed successfully", and changes nothing. *)
Theorem remove_of_a_missing_account (w : World) :
  rejection d AuthFindByIdAndDelete = None ->
  rejection d UserFindByIdAndDelete = None ->
  find (by_id (authId user)) (auths w) = None ->
  find (by_user_id (userId user)) (users w) = None ->
  remove d user w =
    (Responded OK (mkJson true "User Removed successfully" []), w).
Proof.
  intros H1 H2 Ha Hu.
  unfold remove, Auth_findByIdAndDelete, User_findByIdAndDelete, Promise_all, respond.
  rewrite H1, H2. simpl.
  rewrite (delete_first_none _ _ Ha), (delete_first_none _ _ Hu).
  now destruct w.
Qed.

(** X8.  After a [remove] that nothing rejected, with emails unique among the
    Auths, [login] with the email of the removed Auth forwards NotFound
    whatever password is given; every Auth with another [_id] is still
    there, and no message was sent. *)
Theorem remove_then_login_is_not_found `{Libraries} (env : Env) (password : string)
        (w : World) (a : Auth.t) :
  rejection d AuthFindByIdAndDelete = None ->
  rejection d UserFindByIdAndDelete = None ->
  NoDup (map Auth.email (auths w)) ->
  find (by_id (authId user)) (auths w) = Some a ->
  fails env AuthFindOne = false ->
  let w' := snd (remove d user w) in
  fst (remove d user w) = Responded OK (mkJson true "User Removed successfully" [])
  /\ login env (Auth.email a) password w' =
       (Next (HttpError NOT_FOUND "No account found with the given email"), w')
  /\ (forall b, In b (auths w) -> Auth._id b <> authId user -> In b (auths w'))
  /\ outbox w' = outbox w.
Proof.
  intros H1 H2 Hnd Ha Hfind. cbv zeta.
  unfold remove, Auth_findByIdAndDelete, User_findByIdAndDelete, Promise_all, respond.
  rewrite H1, H2. simpl. repeat apply conj; try reflexivity.
  - unfold login, to_or_next, Auth_findOne. rewrite Hfind. simpl.
    rewrite (delete_first_by_id_email _ _ _ Hnd Ha). reflexivity.
  - intros b Hb Hid. apply delete_first_keeps; [exact Hb|].
    unfold by_id. now apply Nat.eqb_neq.
Qed.

End RemoveFacts.

(** ** The router *)

Section RouterFacts.

Context `{Libraries}.

(** X9.  No route of [authRouter] leads to [recoveryVerify]: the route
    /recovery-verify is bound to [recovery].  A request posted there,
    whatever OTP its body carries, runs [recovery] on its email: the stored
    OTP is not consumed but replaced by a fresh one, which is sent. *)
Theorem recovery_verify_route_runs_recovery (env : Env) (d : Deletes) (req : Request) :
  Forall (fun r => endpoint r <> RecoveryVerify) authRouter
  /\ (forall r, In r authRouter -> path r = "/recovery-verify" ->
      verb r = POST /\ guard r = None
      /\ invoke env d (endpoint r) req = recovery env (body_email req))
  /\ (forall r w a,
        In r authRouter -> path r = "/recovery-verify" ->
        fails env AuthFindOne = false -> fails env AuthSave = false ->
        find (by_email (body_email req)) (auths w) = Some a ->
        let w' := snd (invoke env d (endpoint r) req w) in
        find (by_email (body_email req)) (auths w')
          = Some (reissueRecovery (generateOTP env) (now env + 60 * 1000) a)
        /\ outbox w' = outbox w ++ [Email (body_email req) (generateOTP env)]).
Proof.
  assert (Hroute : forall r, In r authRouter -> path r = "/recovery-verify" ->
                     r = mkRoute POST "/recovery-verify" None Recovery).
  { intros r Hin Hp. simpl in Hin.
    repeat (destruct Hin as [<- | Hin]; [try discriminate Hp; try reflexivity|]).
    destruct Hin. }
  repeat apply conj.
  - repeat constructor; discriminate.
  - intros r Hin Hp. rewrite (Hroute r Hin Hp). simpl. repeat split.
  - intros r w a Hin Hp Hfind Hsave Ha. rewrite (Hroute r Hin Hp). cbv zeta. simpl.
    rewrite (recovery_run (body_email req) env w a) by assumption. simpl.
    split; [|reflexivity]. now apply find_by_email_updated.
Qed.

End RouterFacts.

(** ** More on register and activate *)

Section RegisterActivateFacts.

Context `{Libraries}.
Variables (name email : string) (phoneNumber : option string).
Variables (password confirmPassword : string).

(** X10.  [register] never adds a document for an email that has an Auth:
    both collections keep their size.  When that Auth is verified the answer
    is the Conflict that asks to log in, and nothing is written or sent,
    whatever password the request carries. *)
Theorem register_existing_email_creates_nothing (env : Env) (w : World) (a : Auth.t) :
  find (by_email email) (auths w) = Some a ->
  let r := register env name email phoneNumber password confirmPassword w in
  length (auths (snd r)) = length (auths w)
  /\ users (snd r) = users w
  /\ (fails env AuthFindOne = false -> Auth.isVerified a = true ->
      r = (Responded CONFLICT
             (mkJson false "Your account already exists. Please login now."
                [("isVerified", VBool true)]), w)).
Proof.
  intros Ha. cbv zeta.
  unfold register, to_or_next, await, Auth_findOne, Auth_save, sendEmail.
  destruct (fails env AuthFindOne); simpl.
  - repeat split; intros; discriminate.
  - rewrite Ha. simpl. destruct (Auth.isVerified a) eqn:Hv; simpl.
    + repeat split.
    + destruct (fails env AuthSave); simpl; repeat split;
        try (intros; discriminate).
      apply length_map.
Qed.

(** [activate] writes only when the OTP of the request is the stored one;
    otherwise it forwards an error. *)
Lemma activate_miss (e : Env) (guess : string) (w : World) (a : Auth.t) :
  find (by_email email) (auths w) = Some a ->
  Auth.verificationOTP a <> Some guess ->
  exists error, activate e email guess w = (Next error, w).
Proof.
  intros Ha Hne.
  unfold activate, to_or_next, Auth_findOne_without_password.
  destruct (negb (truthy email) || negb (truthy guess)); [eexists; reflexivity|].
  destruct (fails e AuthFindOne); [eexists; reflexivity|].
  rewrite Ha. simpl.
  destruct (negb (truthy_opt (Auth.verificationOTP a)) || _); [eexists; reflexivity|].
  destruct (Auth.verificationOTP a) as [stored|]; simpl; [|eexists; reflexivity].
  destruct (String.eqb_spec guess stored) as [->|Hd]; simpl.
  - now destruct Hne.
  - eexists; reflexivity.
Qed.

(** X11.  [activate] does not count attempts: after any series of requests
    with OTPs other than the stored one, at any times, every one of them has
    been answered with an error and the world is what it was, so the stored
    OTP is still the one to give. *)
Theorem activate_wrong_guesses_change_nothing
        (attempts : list (Env * string)) (w : World) (a : Auth.t) :
  find (by_email email) (auths w) = Some a ->
  Forall (fun attempt => Auth.verificationOTP a <> Some (snd attempt)) attempts ->
  after_guesses (fun e guess => activate e email guess) attempts w = w
  /\ Forall (fun attempt =>
               exists error,
                 fst (activate (fst attempt) email (snd attempt) w) = Next error)
            attempts.
Proof.
  intros Ha Hall. unfold after_guesses.
  induction Hall as [|[e guess] attempts Hne _ IH]; simpl.
  - split; [reflexivity|constructor].
  - simpl in Hne. destruct (activate_miss e guess w a Ha Hne) as [error Hr].
    rewrite Hr. simpl. destruct IH as [IHw IHo]. split; [exact IHw|].
    constructor; [|exact IHo]. simpl. rewrite Hr. exists error. reflexivity.
Qed.

(** The answer of [activate] to the stored OTP given in time, depending on
    the access secret and on the paired User. *)
Lemma activate_live_otp_answer (e : Env) (otp : string) (w : World) (a : Auth.t)
      (expiredAt : Z) :
  email <> "" -> otp <> "" ->
  fails e AuthFindOne = false -> fails e AuthSave = false ->
  find (by_email email) (auths w) = Some a ->
  Auth.verificationOTP a = Some otp ->
  Auth.verificationOTPExpiredAt a = Some expiredAt ->
  now e <= expiredAt ->
  fst (activate e email otp w) =
    match JWT_ACCESS_SECRET e with
    | Some accessSecret =>
        if truthy accessSecret then
          if fails e UserFindOne then Next (StoreError UserFindOne)
          else
            match find (by_auth (Auth._id a)) (users w) with
            | None => Next (HttpError NOT_FOUND "Associated user not found.")
            | Some u =>
                Responded OK
                  (mkJson true "Account successfully verified."
                     [("accessToken",
                       VString (generateToken (Auth._id a) accessSecret "96h"));
                      ("auth", VAuth (consumeVerification (Auth.set_password None a)));
                      ("user",
                       VUser (Some (populate
                                      (set_auths (map (updated a consumeVerification)
                                                      (auths w)) w) u)))])
            end
        else Next (HttpError INTERNAL_SERVER_ERROR "Unexpected Server Error")
    | None => Next (HttpError INTERNAL_SERVER_ERROR "Unexpected Server Error")
    end.
Proof.
  intros He Ho Hfind Hsave Ha Hotp Hexp Hnow.
  apply truthy_iff in He. apply truthy_iff in Ho.
  unfold activate, to_or_next, Auth_findOne_without_password, Auth_save,
    User_findOne_populated.
  rewrite He, Ho. simpl. rewrite Hfind, Ha. simpl. rewrite Hotp, Hexp. simpl.
  rewrite Ho. simpl.
  replace (expiredAt <? now e) with false by (symmetry; apply Z.ltb_ge; lia).
  rewrite String.eqb_refl, Hsave. simpl.
  rewrite (map_ext _ (updated a consumeVerification)) by reflexivity.
  destruct (JWT_ACCESS_SECRET e) as [s|]; [destruct (truthy s)|]; simpl;
    try reflexivity.
  destruct (fails e UserFindOne); simpl; try reflexivity.
  destruct (find _ (users w)); reflexivity.
Qed.

(** X12.  [activate] saves before it reads the access secret and before it
    loads the User.  With the stored OTP given in time, an unset or empty
    secret gives an internal server error and a missing User gives NotFound,
    and in both cases the Auth is stored verified with its OTP consumed. *)
Theorem activate_verifies_before_it_can_fail (env : Env) (otp : string) (w : World)
        (a : Auth.t) (expiredAt : Z) :
  email <> "" -> otp <> "" ->
  fails env AuthFindOne = false -> fails env AuthSave = false ->
  find (by_email email) (auths w) = Some a ->
  Auth.verificationOTP a = Some otp ->
  Auth.verificationOTPExpiredAt a = Some expiredAt ->
  now env <= expiredAt ->
  let r := activate env email otp w in
  find (by_email email) (auths (snd r)) = Some (consumeVerification a)
  /\ (JWT_ACCESS_SECRET env = None \/ JWT_ACCESS_SECRET env = Some "" ->
      fst r = Next (HttpError INTERNAL_SERVER_ERROR "Unexpected Server Error"))
  /\ (forall accessSecret,
        JWT_ACCESS_SECRET env = Some accessSecret -> accessSecret <> "" ->
        fails env UserFindOne = false ->
        find (by_auth (Auth._id a)) (users w) = None ->
        fst r = Next (HttpError NOT_FOUND "Associated user not found.")).
Proof.
  intros He Ho Hfind Hsave Ha Hotp Hexp Hnow. cbv zeta.
  rewrite (activate_live_otp_world env email otp w a expiredAt) by assumption.
  rewrite (activate_live_otp_answer env otp w a expiredAt) by assumption.
  repeat apply conj.
  - simpl. now apply find_by_email_updated.
  - intros [Hs | Hs]; rewrite Hs; reflexivity.
  - intros s Hs Hne Hu Hnone. apply truthy_iff in Hne.
    rewrite Hs, Hne, Hu, Hnone. reflexivity.
Qed.

(** X13.  The OTP [register] issues for a fresh email activates the account
    up to 30 minutes later, and is refused with Unauthorized after that.
    The confirmation field plays no part: it is arbitrary here. *)
Theorem register_then_activate (env env2 : Env) (w : World) :
  email <> "" -> generateOTP env <> "" ->
  find (by_email email) (auths w) = None ->
  fails env AuthFindOne = false ->
  fails env AuthCreate = false -> fails env UserCreate = false ->
  fails env2 AuthFindOne = false -> fails env2 AuthSave = false ->
  let otp := generateOTP env in
  let w1 := snd (register env name email phoneNumber password confirmPassword w) in
  let r2 := activate env2 email otp w1 in
  (now env2 <= now env + 30 * 60 * 1000 ->
   find (by_email email) (auths (snd r2))
     = Some (consumeVerification (registeredAuth env email password))
   /\ forall accessSecret,
        JWT_ACCESS_SECRET env2 = Some accessSecret -> accessSecret <> "" ->
        fails env2 UserFindOne = false ->
        exists body, fst r2 = Responded OK body)
  /\ (now env + 30 * 60 * 1000 < now env2 ->
      r2 = (Next (HttpError UNAUTHORIZED "Verification OTP has expired."), w1)).
Proof.
  intros He Ho Hfresh Hf Hca Hcu Hf2 Hs2. cbv zeta.
  assert (Hw1 : snd (register env name email phoneNumber password confirmPassword w)
                = mkWorld (auths w ++ [registeredAuth env email password])
                          (users w ++ [registeredUser env name phoneNumber])
                          (outbox w ++ [Email email (generateOTP env)])).
  { unfold register, to_or_next, Auth_findOne, Auth_create_in, User_create_in.
    rewrite Hf, Hfresh. simpl. rewrite Hca, Hcu. reflexivity. }
  rewrite Hw1.
  assert (Ha : find (by_email email)
                 (auths (mkWorld (auths w ++ [registeredAuth env email password])
                           (users w ++ [registeredUser env name phoneNumber])
                           (outbox w ++ [Email email (generateOTP env)])))
               = Some (registeredAuth env email password)).
  { simpl. rewrite find_app_none by assumption. simpl.
    unfold by_email. simpl. now rewrite String.eqb_refl. }
  split.
  - intros Hnow.
    rewrite (activate_live_otp_world env2 email (generateOTP env) _
               (registeredAuth env email password) (now env + 30 * 60 * 1000))
      by (auto; reflexivity).
    rewrite (activate_live_otp_answer env2 (generateOTP env) _
               (registeredAuth env email password) (now env + 30 * 60 * 1000))
      by (auto; reflexivity).
    split.
    + simpl. apply find_by_email_updated; [reflexivity|exact Ha].
    + intros s Hs Hne Hu. apply truthy_iff in Hne. rewrite Hs, Hne, Hu.
      destruct (find_app_last (by_auth (newAuthId env)) (users w)
                  (registeredUser env name phoneNumber)) as [u Hfu].
      { unfold by_auth. simpl. apply Nat.eqb_refl. }
      simpl. simpl in Hfu. rewrite Hfu. eexists. reflexivity.
  - intros Hlate.
    apply activate_dead_otp with (a := registeredAuth env email password); auto.
    right. right. exists (now env + 30 * 60 * 1000). split; [reflexivity|exact Hlate].
Qed.

End RegisterActivateFacts.

(** ** More on login and Google sign-in *)

Section LoginMoreFacts.

Context `{Libraries}.

(** X14.  [login] never writes and never sends, whatever it answers. *)
Theorem login_never_writes (env : Env) (email password : string) (w : World) :
  snd (login env email password w) = w.
Proof.
  unfold login, to_or_next, Auth_findOne, resolved, bcrypt_compare.
  destruct (fails env AuthFindOne); simpl; [reflexivity|].
  destruct (find _ _) as [a|]; simpl; [|reflexivity].
  destruct (Auth.password a) as [hash|]; simpl; [|reflexivity].
  destruct (bcrypt_matches password hash); simpl; [|reflexivity].
  destruct (Auth.isVerified a); simpl; [|reflexivity].
  destruct (Auth.isBlocked a); simpl; [reflexivity|].
  apply issueTokens_world.
Qed.

(** X15.  [login] sends a response exactly when the email finds an Auth with
    a password hash the password matches, verified and not blocked, both
    secrets are set and non-empty, and no lookup is rejected.  The response
    is then OK with an access and a refresh token for the Auth's id; the
    User in it is the paired one, or null when there is none. *)
Theorem login_succeeds_exactly_when (env : Env) (email password : string) (w : World)
        (status : StatusCode) (body : Json) :
  fst (login env email password w) = Responded status body <->
  exists a hash accessSecret refreshSecret,
    fails env AuthFindOne = false
    /\ find (by_email email) (auths w) = Some a
    /\ Auth.password a = Some hash /\ bcrypt_matches password hash = true
    /\ Auth.isVerified a = true /\ Auth.isBlocked a = false
    /\ JWT_ACCESS_SECRET env = Some accessSecret /\ accessSecret <> ""
    /\ JWT_REFRESH_SECRET env = Some refreshSecret /\ refreshSecret <> ""
    /\ fails env UserFindOne = false
    /\ status = OK
    /\ body = mkJson true "Login successful"
                [("accessToken", VString (generateToken (Auth._id a) accessSecret "96h"));
                 ("refreshToken",
                  VString (generateToken (Auth._id a) refreshSecret "96h"));
                 ("auth", VAuth a);
                 ("user", VUser (option_map (populate w)
                                   (find (by_auth (Auth._id a)) (users w))))].
Proof.
  unfold login, to_or_next, Auth_findOne, resolved, bcrypt_compare, issueTokens,
    secrets, User_findOne_populated.
  split.
  - destruct (fails env AuthFindOne); simpl; [discriminate|].
    destruct (find _ (auths w)) as [a|]; simpl; [|discriminate].
    destruct (Auth.password a) as [hash|] eqn:Hp; simpl; [|discriminate].
    destruct (bcrypt_matches password hash) eqn:Hm; simpl; [|discriminate].
    destruct (Auth.isVerified a) eqn:Hv; simpl; [|discriminate].
    destruct (Auth.isBlocked a) eqn:Hb; simpl; [discriminate|].
    destruct (JWT_ACCESS_SECRET env) as [s1|]; [|discriminate].
    destruct (JWT_REFRESH_SECRET env) as [s2|]; [|discriminate].
    destruct (truthy s1) eqn:H1; [|discriminate].
    destruct (truthy s2) eqn:H2; [|discriminate]. simpl.
    destruct (fails env UserFindOne); simpl; [discriminate|].
    intros Hr. injection Hr as <- <-.
    exists a, hash, s1, s2. apply truthy_iff in H1. apply truthy_iff in H2.
    repeat split; assumption.
  - intros (a & hash & s1 & s2 & Hf & Ha & Hp & Hm & Hv & Hb & Hs1 & Hn1 & Hs2 & Hn2
            & Hu & -> & ->).
    apply truthy_iff in Hn1. apply truthy_iff in Hn2.
    rewrite Hf, Ha. simpl. rewrite Hp. simpl. rewrite Hm, Hv, Hb. simpl.
    rewrite Hs1, Hs2, Hn1, Hn2. simpl. rewrite Hu. reflexivity.
Qed.

(** X16.  After a [changePassword] that went through, [login] compares with
    the hash of the new password only: a password that does not match it is
    refused with Unauthorized, the old one included, and one that matches it
    passes the password test. *)
Theorem changePassword_then_login (env env2 : Env) (user : DecodedUser)
        (old new confirmPassword : string) (w : World) (a : Auth.t) (hash : string) :
  fails env AuthFindById = false -> fails env AuthSave = false ->
  find (by_id (authId user)) (auths w) = Some a ->
  find (by_email (Auth.email a)) (auths w) = Some a ->
  Auth.password a = Some hash -> bcrypt_matches old hash = true ->
  fails env2 AuthFindOne = false ->
  let stored := bcrypt_hash (salt env) new in
  let w1 := snd (changePassword env user old new confirmPassword w) in
  find (by_email (Auth.email a)) (auths w1) = Some (rehash stored a)
  /\ (forall password,
        bcrypt_matches password stored = false ->
        login env2 (Auth.email a) password w1 =
          (Next (HttpError UNAUTHORIZED "Wrong password"), w1))
  /\ (forall password,
        bcrypt_matches password stored = true ->
        forall error,
          fst (login env2 (Auth.email a) password w1) = Next error ->
          error <> HttpError UNAUTHORIZED "Wrong password").
Proof.
  intros Hfind Hsave Ha He Hp Hm Hfind2. cbv zeta.
  assert (Hw1 : snd (changePassword env user old new confirmPassword w)
                = set_auths (map (updated a (rehash (bcrypt_hash (salt env) new)))
                               (auths w)) w).
  { unfold changePassword, to_or_next, await, Auth_findById, Auth_save, resolved,
      bcrypt_compare.
    rewrite Hfind, Ha. simpl. rewrite Hp, Hm. simpl. rewrite Hsave. simpl.
    rewrite (map_ext _ (updated a (rehash (bcrypt_hash (salt env) new))))
      by reflexivity.
    reflexivity. }
  rewrite Hw1.
  assert (Hstored : find (by_email (Auth.email a))
                      (auths (set_auths (map (updated a (rehash (bcrypt_hash (salt env) new)))
                                           (auths w)) w))
                    = Some (rehash (bcrypt_hash (salt env) new) a)).
  { simpl. now apply find_by_email_updated. }
  repeat apply conj.
  - exact Hstored.
  - intros password Hno.
    unfold login, to_or_next, Auth_findOne, resolved, bcrypt_compare.
    rewrite Hfind2, Hstored. simpl. rewrite Hno. reflexivity.
  - intros password Hyes error.
    unfold login, to_or_next, Auth_findOne, resolved, bcrypt_compare.
    rewrite Hfind2, Hstored. simpl. rewrite Hyes. simpl.
    destruct (Auth.isVerified a); simpl; [|intros [= <-]; discriminate].
    destruct (Auth.isBlocked a); simpl; [intros [= <-]; discriminate|].
    unfold issueTokens, to_or_next, User_findOne_populated.
    destruct (secrets env2) as [[s1 s2]|]; simpl; [|intros [= <-]; discriminate].
    destruct (fails env2 UserFindOne); simpl; [intros [= <-]; discriminate|discriminate].
Qed.

(** X17.  A second [signInWithGoogle] with a googleId creates nothing: it
    finds the Auth the first one created and leaves the world as it is.  So
    an Auth left without its User by a rejected [User.create] stays without
    one, and such a sign-in is still answered OK, with a null user. *)
Theorem signInWithGoogle_again_creates_nothing (env env2 : Env)
        (googleId name email name2 email2 : string) (avatar avatar2 : option string)
        (w : World) :
  fails env AuthFindOne = false -> fails env AuthCreate = false ->
  find (by_googleId googleId) (auths w) = None ->
  fails env2 AuthFindOne = false ->
  let w1 := snd (signInWithGoogle env googleId name email avatar w) in
  let r2 := signInWithGoogle env2 googleId name2 email2 avatar2 w1 in
  snd r2 = w1
  /\ (fails env UserCreate = true -> users w1 = users w)
  /\ (forall accessSecret refreshSecret,
        JWT_ACCESS_SECRET env2 = Some accessSecret -> accessSecret <> "" ->
        JWT_REFRESH_SECRET env2 = Some refreshSecret -> refreshSecret <> "" ->
        fails env2 UserFindOne = false ->
        fst r2 =
          Responded OK
            (mkJson true "Login successful"
               [("accessToken",
                 VString (generateToken (newAuthId env) accessSecret "96h"));
                ("refreshToken",
                 VString (generateToken (newAuthId env) refreshSecret "96h"));
                ("auth", VAuth (googleAuth env googleId email));
                ("user", VUser (option_map (populate w1)
                                  (find (by_auth (newAuthId env)) (users w1))))])).
Proof.
  intros Hfind Hcreate Hnone Hfind2. cbv zeta.
  assert (Hg : find (by_googleId googleId)
                 (auths (snd (signInWithGoogle env googleId name email avatar w)))
               = Some (googleAuth env googleId email)).
  { rewrite signInWithGoogle_auths by assumption.
    rewrite find_app_none by assumption. simpl.
    unfold by_googleId. simpl. now rewrite String.eqb_refl. }
  repeat apply conj.
  - unfold signInWithGoogle at 1. unfold to_or_next, Auth_findOne.
    rewrite Hfind2, Hg. simpl. apply issueTokens_world.
  - intros Hu.
    unfold signInWithGoogle, to_or_next, Auth_findOne, Auth_create, User_create.
    rewrite Hfind, Hnone. simpl. rewrite Hcreate. simpl. rewrite Hu. reflexivity.
  - intros s1 s2 H1 Hn1 H2 Hn2 Hu.
    apply truthy_iff in Hn1. apply truthy_iff in Hn2.
    unfold signInWithGoogle at 1. unfold to_or_next, Auth_findOne.
    rewrite Hfind2, Hg. simpl.
    unfold issueTokens, secrets, to_or_next, User_findOne_populated.
    rewrite H1, H2, Hn1, Hn2. simpl. rewrite Hu. reflexivity.
Qed.

End LoginMoreFacts.

(** ** More on resending *)

Section ResendMoreFacts.

Context `{Libraries}.
Variable env : Env.
Variable email : string.

(** The world after a [resendOTP] for email activation that found an
    unverified Auth and saved it. *)
Lemma resendOTP_email_run (w : World) (a : Auth.t) :
  fails env AuthFindOne = false -> fails env AuthSave = false ->
  find (by_email email) (auths w) = Some a -> Auth.isVerified a = false ->
  snd (resendOTP env emailActivation email w) =
    mkWorld (map (updated a (reissueVerification (generateOTP env) (now env + 60 * 1000)))
                 (auths w))
            (users w) (outbox w ++ [Email email (generateOTP env)]).
Proof.
  intros Hfind Hsave Ha Hv.
  unfold resendOTP, to_or_next, await, Auth_findOne, Auth_save, sendEmail.
  rewrite Hfind, Ha. simpl. rewrite Hv. simpl. rewrite Hsave. simpl.
  rewrite (map_ext _ (updated a (reissueVerification (generateOTP env)
                                   (now env + 60 * 1000)))) by reflexivity.
  reflexivity.
Qed.

(** The world after a [register] that found an unverified Auth and saved
    it. *)
Lemma register_retry_run (name : string) (phoneNumber : option string)
      (password confirmPassword : string) (w : World) (a : Auth.t) :
  fails env AuthFindOne = false -> fails env AuthSave = false ->
  find (by_email email) (auths w) = Some a -> Auth.isVerified a = false ->
  snd (register env name email phoneNumber password confirmPassword w) =
    mkWorld (map (updated a (reissueVerification (generateOTP env)
                               (now env + 30 * 60 * 1000)))
                 (auths w))
            (users w) (outbox w ++ [Email email (generateOTP env)]).
Proof.
  intros Hfind Hsave Ha Hv.
  unfold register, to_or_next, await, Auth_findOne, Auth_save, sendEmail.
  rewrite Hfind, Ha. simpl. rewrite Hv. simpl. rewrite Hsave. simpl.
  rewrite (map_ext _ (updated a (reissueVerification (generateOTP env)
                                   (now env + 30 * 60 * 1000)))) by reflexivity.
  reflexivity.
Qed.

(** X18.  [resendOTP] for phone activation saves before it reads the phone
    number.  When the Auth has no User, the fresh OTP replaces the stored
    one, nothing is sent, and the handler's promise is rejected with a
    TypeError: no response, nothing passed to [next]. *)
Theorem resendOTP_phone_without_user (w : World) (a : Auth.t) :
  fails env AuthFindOne = false -> fails env UserFindOne = false ->
  fails env AuthSave = false ->
  find (by_email email) (auths w) = Some a -> Auth.isVerified a = false ->
  find (by_auth (Auth._id a)) (users w) = None ->
  let r := resendOTP env phoneActivation email w in
  (exists msg, fst r = Rejected (TypeError msg))
  /\ find (by_email email) (auths (snd r))
     = Some (reissueVerification (generateOTP env) (now env + 60 * 1000) a)
  /\ outbox (snd r) = outbox w.
Proof.
  intros Hfind Hu Hsave Ha Hv Hnone. cbv zeta.
  unfold resendOTP, to_or_next, await, Auth_findOne, Auth_save, User_findOne.
  rewrite Hfind, Ha. simpl. rewrite Hv. simpl. rewrite Hu. simpl.
  rewrite Hnone, Hsave. simpl.
  rewrite (map_ext _ (updated a (reissueVerification (generateOTP env)
                                   (now env + 60 * 1000)))) by reflexivity.
  repeat apply conj; try reflexivity.
  - eexists. reflexivity.
  - now apply find_by_email_updated.
Qed.

(** X19.  Issuing a new verification OTP, by [resendOTP] for email
    activation or by a repeated [register], puts every other OTP out of use,
    the previous one included: [activate] with an OTP that differs from the
    new one is answered with an error at any time afterwards, and writes
    nothing. *)
Theorem reissue_retires_the_previous_otp (env2 : Env) (previous : string)
        (name : string) (phoneNumber : option string)
        (password confirmPassword : string) (w : World) (a : Auth.t) :
  fails env AuthFindOne = false -> fails env AuthSave = false ->
  find (by_email email) (auths w) = Some a -> Auth.isVerified a = false ->
  generateOTP env <> previous ->
  (let w1 := snd (resendOTP env emailActivation email w) in
   exists error, activate env2 email previous w1 = (Next error, w1))
  /\ (let w1 := snd (register env name email phoneNumber password confirmPassword w) in
      exists error, activate env2 email previous w1 = (Next error, w1)).
Proof.
  intros Hfind Hsave Ha Hv Hne. cbv zeta. split.
  - rewrite (resendOTP_email_run w a) by assumption.
    apply activate_miss with
      (a := reissueVerification (generateOTP env) (now env + 60 * 1000) a).
    + simpl. now apply find_by_email_updated.
    + simpl. intros [= Heq]. now apply Hne.
  - rewrite (register_retry_run name phoneNumber password confirmPassword w a)
      by assumption.
    apply activate_miss with
      (a := reissueVerification (generateOTP env) (now env + 30 * 60 * 1000) a).
    + simpl. now apply find_by_email_updated.
    + simpl. intros [= Heq]. now apply Hne.
Qed.

End ResendMoreFacts.

(** ** What no handler does *)

Lemma same_identity_refl (a : Auth.t) : same_identity a a.
Proof. unfold same_identity. repeat split. Qed.

Lemma same_identity_persist (d : Doc) (s : Auth.t) : same_identity s (persist d s).
Proof.
  unfold persist. induction (modified d) as [|p ps IH]; simpl.
  - apply same_identity_refl.
  - unfold same_identity in *. destruct p; simpl; exact IH.
Qed.

Lemma same_identity_save_into (d : Doc) (s : Auth.t) : same_identity s (save_into d s).
Proof.
  unfold save_into. destruct (_ =? _)%nat;
    auto using same_identity_persist, same_identity_refl.
Qed.

Lemma same_identity_ids (l l' : list Auth.t) :
  Forall2 same_identity l l' -> map Auth._id l' = map Auth._id l.
Proof.
  induction 1 as [|x y l l' Hxy _ IH]; simpl; [reflexivity|].
  destruct Hxy as (Hid & _). now rewrite Hid, IH.
Qed.

Lemma forallb_on_map {A B : Type} (f : B -> bool) (g : A -> B) (l : list A) :
  forallb f (map g l) = forallb (fun x => f (g x)) l.
Proof. induction l as [|x l IH]; simpl; [reflexivity|]. now rewrite IH. Qed.

Lemma paired_ids (w w' : World) :
  map Auth._id (auths w') = map Auth._id (auths w) -> users w' = users w ->
  paired w' = paired w.
Proof.
  unfold paired. intros Hids Hu. rewrite Hu.
  rewrite <- (forallb_on_map (fun i => existsb (by_auth i) (users w)) Auth._id (auths w')).
  rewrite <- (forallb_on_map (fun i => existsb (by_auth i) (users w)) Auth._id (auths w)).
  now rewrite Hids.
Qed.

Lemma only_saved_keeps (w w' : World) :
  only_saved w w' ->
  Forall2 same_identity (auths w) (auths w')
  /\ users w' = users w /\ paired w' = paired w.
Proof.
  intros (Hu & Ha).
  assert (Hf : Forall2 same_identity (auths w) (auths w')).
  { destruct Ha as [-> | [d ->]].
    - rewrite <- (map_id (auths w)) at 2.
      apply Forall2_map_same, same_identity_refl.
    - apply Forall2_map_same, same_identity_save_into. }
  repeat split; auto.
  apply paired_ids; auto using same_identity_ids.
Qed.

Ltac branch :=
  match goal with
  | |- context [if ?b then _ else _] => destruct b
  | |- context [match ?o with Some _ => _ | None => _ end] => destruct o
  end.

Ltac saved_or_not :=
  simpl; split;
  [ reflexivity
  | first [ left; reflexivity | right; eexists; reflexivity ] ].

Section NoHandler.

Context `{Libraries}.
Variable env : Env.
Variable d : Deletes.
Variable req : Request.

Lemma only_saved_endpoints (e : Endpoint) (w : World) :
  e <> Register -> e <> SignInWithGoogle -> e <> Remove ->
  only_saved w (snd (invoke env d e req w)).
Proof.
  intros Hr Hg Hd. destruct e; try contradiction; simpl.
  - unfold activate, to_or_next, Auth_findOne_without_password, Auth_save,
      User_findOne_populated, next, respond.
    repeat branch; saved_or_not.
  - rewrite login_never_writes. saved_or_not.
  - unfold recovery, to_or_next, await, Auth_findOne, Auth_save, sendEmail,
      next, respond.
    repeat branch; saved_or_not.
  - unfold recoveryVerify, to_or_next, Auth_findOne_without_password, Auth_save,
      next, respond.
    repeat branch; saved_or_not.
  - unfold resendOTP, to_or_next, await, Auth_findOne, Auth_save, User_findOne,
      sendEmail, sendSMS, next, respond.
    repeat branch; saved_or_not.
  - unfold resetPassword, to_or_next, await, Auth_findOne, Auth_save, next, respond.
    repeat branch; saved_or_not.
  - unfold changePassword, to_or_next, await, Auth_findById, Auth_save, resolved,
      bcrypt_compare, next, respond.
    repeat branch; saved_or_not.
Qed.

(** X20.  Apart from [register], [signInWithGoogle] and [remove], no handler
    adds or deletes a document or changes a User, and none of them changes
    the [_id], the email, the googleId or the blocked flag of an Auth, on
    any request and whatever is rejected.  So a world where every Auth has a
    User stays one, and one where some Auth has none stays that too. *)
Theorem handlers_keep_identities (e : Endpoint) (w : World) :
  e <> Register -> e <> SignInWithGoogle -> e <> Remove ->
  let w' := snd (invoke env d e req w) in
  Forall2 same_identity (auths w) (auths w')
  /\ users w' = users w
  /\ paired w' = paired w.
Proof.
  intros Hr Hg Hd. apply only_saved_keeps. now apply only_saved_endpoints.
Qed.

End NoHandler.

(** ** The two ways to a recovery OTP *)

(** X21.  [resendOTP] for email recovery leaves the world exactly as
    [recovery] does, on every request and whatever is rejected; the two
    differ only in what they answer. *)
Theorem resendOTP_recovers_like_recovery (env : Env) (email : string) (w : World) :
  snd (resendOTP env emailRecovery email w) = snd (recovery env email w)
  /\ (forall a,
        fails env AuthFindOne = false -> fails env AuthSave = false ->
        find (by_email email) (auths w) = Some a ->
        fst (resendOTP env emailRecovery email w) =
          Responded OK
            (mkJson true "OTP resend successful"
               [("recoveryOTP", VOptString (Some (generateOTP env)))])
        /\ fst (recovery env email w) =
             Responded OK
               (mkJson true "Success"
                  [("recoveryOTP", VOptString (Some (generateOTP env)))])).
Proof.
  unfold resendOTP, recovery, to_or_next, await, Auth_findOne, Auth_save, sendEmail.
  split.
  - destruct (fails env AuthFindOne); simpl; [reflexivity|].
    destruct (find _ _) as [a|]; simpl; [|reflexivity].
    destruct (fails env AuthSave); reflexivity.
  - intros a Hfind Hsave Ha. rewrite Hfind, Ha. simpl. rewrite Hsave. simpl.
    split; reflexivity.
Qed.

(** ** The handlers on the sample data *)

#[local] Existing Instance toy.

(** The scenario of the spec's section 8: register, activate with the OTP
    that was issued, log in, then log in with a wrong password. *)
Example register_activate_login :
  let r1 := register (quiet 100) "Ann" "a@x.com" None "pw" "pw" nobody in
  let r2 := activate (quiet 200) "a@x.com" "123456" (snd r1) in
  let r3 := login (quiet 300) "a@x.com" "pw" (snd r2) in
  let r4 := login (quiet 400) "a@x.com" "wrong" (snd r2) in
  map statusOf [fst r1; fst r2; fst r3; fst r4]
  = [Some 201; Some 200; Some 200; Some 401].
Proof. reflexivity. Qed.

(** A rejected [User.create] leaves an Auth without a User after
    [signInWithGoogle], and none after [register]. *)
Example orphan_after_google_only :
  paired (snd (signInWithGoogle (rejecting UserCreate 100) "g-1" "Cy" "c@x.com" None
                 nobody)) = false
  /\ paired (snd (register (rejecting UserCreate 100) "Cy" "c@x.com" None "pw" "pw"
                    nobody)) = true.
Proof. split; reflexivity. Qed.

Lemma register_fresh_email_is_atomic_witness :
  find (by_email "a@x.com") (auths nobody) = None
  /\ snd (register (rejecting UserCreate 100) "Ann" "a@x.com" None "pw" "pw" nobody)
     = nobody
  /\ auths (snd (register (quiet 100) "Ann" "a@x.com" None "pw" "pw" nobody))
     = [registeredAuth (quiet 100) "a@x.com" "pw"].
Proof.
  split; [reflexivity|]. split.
  - pose proof (register_fresh_email_is_atomic (rejecting UserCreate 100)
                  "Ann" "a@x.com" None "pw" "pw" nobody eq_refl) as W.
    cbv zeta in W. destruct W as (Wfail & _ & _).
    exact (proj2 (Wfail (or_intror eq_refl))).
  - pose proof (register_fresh_email_is_atomic (quiet 100)
                  "Ann" "a@x.com" None "pw" "pw" nobody eq_refl) as W.
    cbv zeta in W. destruct W as (_ & Wok & _).
    exact (proj1 (proj2 (Wok eq_refl eq_refl eq_refl))).
Defined.

Lemma register_retry_only_touches_the_otp_witness :
  find (by_email "a@x.com") (auths annPending) = Some ann
  /\ Auth.isVerified ann = false
  /\ hashes (snd (register (quiet 100) "Ann" "a@x.com" None "other" "other" annPending))
     = hashes annPending.
Proof.
  split; [reflexivity|]. split; [reflexivity|].
  pose proof (register_retry_only_touches_the_otp (quiet 100)
                "Ann" "a@x.com" None "other" "other" annPending ann
                eq_refl eq_refl eq_refl) as W.
  cbv zeta in W. destruct W as (_ & _ & Wh & _). exact Wh.
Defined.

Lemma activate_checks_expiry_first_witness :
  find (by_email "a@x.com") (auths annPending) = Some ann
  /\ Auth.verificationOTP ann = Some "111111"
  /\ Auth.verificationOTPExpiredAt ann = Some 5000
  /\ activate (quiet 6000) "a@x.com" "111111" annPending
     = (Next (HttpError UNAUTHORIZED "Verification OTP has expired."), annPending).
Proof.
  split; [reflexivity|]. split; [reflexivity|]. split; [reflexivity|].
  apply (activate_checks_expiry_first (quiet 6000) "a@x.com" "111111" annPending ann).
  - discriminate.
  - discriminate.
  - reflexivity.
  - reflexivity.
  - right. right. exists 5000. split; [reflexivity|]. simpl. lia.
Defined.

Lemma activate_consumes_the_otp_witness :
  find (by_email "a@x.com") (auths annPending) = Some ann
  /\ snd (activate (quiet 100) "a@x.com" "111111" annPending) = annVerified
  /\ fst (activate (quiet 200) "a@x.com" "111111"
            (snd (activate (quiet 100) "a@x.com" "111111" annPending)))
     = Next (HttpError UNAUTHORIZED "Verification OTP has expired.").
Proof.
  assert (Hemail : "a@x.com" <> "") by discriminate.
  assert (Hotp : "111111" <> "") by discriminate.
  assert (Hnow : now (quiet 100) <= 5000) by (simpl; lia).
  pose proof (activate_consumes_the_otp (quiet 100) "a@x.com" "111111" (quiet 200)
                annPending ann 5000 Hemail Hotp eq_refl eq_refl eq_refl
                eq_refl eq_refl eq_refl Hnow) as W.
  cbv zeta in W. destruct W as (W1 & _ & _ & _ & _ & _ & W2).
  split; [reflexivity|]. split; [exact W1|]. now rewrite W2.
Defined.

Lemma login_checks_in_order_witness :
  fails (quiet 100) AuthFindOne = false
  /\ login (quiet 100) "a@x.com" "wrong" annPending
     = (Next (HttpError UNAUTHORIZED "Wrong password"), annPending)
  /\ login (quiet 100) "a@x.com" "pw" annPending
     = (Next (HttpError UNAUTHORIZED "Verify your email first"), annPending).
Proof.
  split; [reflexivity|].
  split.
  - destruct (login_checks_in_order (quiet 100) "a@x.com" "wrong" annPending eq_refl)
      as (_ & W).
    destruct (W ann "spw" eq_refl eq_refl) as (Wwrong & _).
    exact (Wwrong eq_refl).
  - destruct (login_checks_in_order (quiet 100) "a@x.com" "pw" annPending eq_refl)
      as (_ & W).
    destruct (W ann "spw" eq_refl eq_refl) as (_ & Wunverified & _).
    exact (Wunverified eq_refl eq_refl).
Defined.

Lemma signInWithGoogle_has_no_gate_witness :
  Auth.isVerified bob = false /\ Auth.isBlocked bob = true
  /\ statusOf (fst (signInWithGoogle (quiet 100) "g-bob" "Bob" "b@x.com" None bobOnly))
     = Some 200
  /\ find (by_googleId "g-cy") (auths annPending) = None
  /\ statusOf (fst (signInWithGoogle (quiet 100) "g-cy" "Cy" "c@x.com" None annPending))
     = Some 200.
Proof.
  split; [reflexivity|]. split; [reflexivity|].
  assert (Haccess : "A" <> "") by discriminate.
  assert (Hrefresh : "R" <> "") by discriminate.
  split; [|split; [reflexivity|]].
  - pose proof (signInWithGoogle_has_no_gate (quiet 100) "g-bob" "Bob" "b@x.com" None
                  bobOnly) as W.
    cbv zeta in W. destruct W as (Wknown & _).
    destruct (Wknown bob eq_refl eq_refl) as (_ & Wtokens).
    destruct (Wtokens "A" "R" eq_refl Haccess eq_refl Hrefresh eq_refl)
      as (populated & Wout).
    rewrite Wout. reflexivity.
  - pose proof (signInWithGoogle_has_no_gate (quiet 100) "g-cy" "Cy" "c@x.com" None
                  annPending) as W.
    cbv zeta in W. destruct W as (_ & _ & _ & Wfirst).
    destruct (Wfirst "A" "R" eq_refl eq_refl eq_refl eq_refl eq_refl Haccess
                eq_refl Hrefresh eq_refl) as (_ & _ & _ & Wout).
    rewrite Wout. reflexivity.
Defined.

Lemma login_of_google_identity_is_server_error_witness :
  find (by_googleId "g-cy") (auths annPending) = None
  /\ find (by_email "c@x.com") (auths annPending) = None
  /\ statusOf (fst (login (quiet 200) "c@x.com" "pw"
                      (snd (signInWithGoogle (quiet 100) "g-cy" "Cy" "c@x.com" None
                              annPending))))
     = Some 500.
Proof.
  split; [reflexivity|]. split; [reflexivity|].
  destruct (login_of_google_identity_is_server_error (quiet 100) (quiet 200)
              "g-cy" "Cy" "c@x.com" None "pw" annPending
              eq_refl eq_refl eq_refl eq_refl eq_refl)
    as (a & error & _ & _ & _ & Wlogin & Werror & _).
  rewrite Wlogin, Werror. reflexivity.
Defined.

Lemma resetPassword_compares_the_two_fields_witness :
  find (by_email (decodedEmail annDecoded)) (auths annPending) = Some ann
  /\ resetPassword (quiet 100) annDecoded "new" "other" annPending
     = (Next (HttpError BAD_REQUEST "Passwords don't match"), annPending)
  /\ Auth.password ann = Some "spw"
  /\ hashes (snd (resetPassword (quiet 100) annDecoded "new" "new" annPending))
     = [(1%nat, Some (bcrypt_hash "s" "new"))].
Proof.
  split; [reflexivity|]. split; [|split; [reflexivity|]].
  - pose proof (resetPassword_compares_the_two_fields (quiet 100) annDecoded
                  "new" "other" annPending) as W.
    cbv zeta in W. destruct W as (Wdiffer & _).
    destruct Wdiffer as (Ww & _ & _ & Wout); [discriminate|].
    apply injective_projections; [exact (Wout ann eq_refl eq_refl) | exact Ww].
  - pose proof (resetPassword_compares_the_two_fields (quiet 100) annDecoded
                  "new" "new" annPending) as W.
    cbv zeta in W. destruct W as (_ & Wagree).
    destruct (Wagree eq_refl ann eq_refl eq_refl eq_refl)
      as (_ & _ & _ & _ & _ & _ & _ & Whashes).
    rewrite Whashes. reflexivity.
Defined.

Lemma changePassword_wrong_old_password_witness :
  find (by_id (authId annDecoded)) (auths annPending) = Some ann
  /\ Auth.password ann = Some "spw"
  /\ bcrypt_matches "wrong" "spw" = false
  /\ changePassword (quiet 100) annDecoded "wrong" "new" "other" annPending
     = (Next (HttpError UNAUTHORIZED "Wrong Password"), annPending).
Proof.
  split; [reflexivity|]. split; [reflexivity|]. split; [reflexivity|].
  destruct (changePassword_wrong_old_password (quiet 100) annDecoded
              "wrong" "new" "other" annPending ann "spw" eq_refl eq_refl eq_refl)
    as (Wwrong & _).
  exact (proj1 (Wwrong eq_refl)).
Defined.

Lemma resendOTP_reissues_unless_verified_witness :
  find (by_email "a@x.com") (auths annVerified) = Some (consumeVerification ann)
  /\ resendOTP (quiet 100) emailActivation "a@x.com" annVerified
     = (Responded CONFLICT
          (mkJson true "Your account is already verified. Please login."
             [("isVerified", VBool true)]), annVerified)
  /\ outbox (snd (resendOTP (quiet 100) phoneActivation "a@x.com" annPending))
     = [SMS (Some "+100") "123456"]
  /\ option_map Auth.verificationOTPExpiredAt
       (find (by_email "a@x.com")
          (auths (snd (resendOTP (quiet 100) phoneActivation "a@x.com" annPending))))
     = Some (Some 60100).
Proof.
  split; [reflexivity|]. split.
  - pose proof (resendOTP_reissues_unless_verified (quiet 100) "a@x.com"
                  emailActivation annVerified (consumeVerification ann)
                  eq_refl eq_refl) as W.
    cbv zeta in W. destruct W as (Wverified & _).
    destruct (Wverified (or_introl eq_refl) eq_refl) as (Wout & _ & Ww).
    apply injective_projections; assumption.
  - pose proof (resendOTP_reissues_unless_verified (quiet 100) "a@x.com"
                  phoneActivation annPending ann eq_refl eq_refl) as W.
    cbv zeta in W. destruct W as (_ & _ & Wphone & _).
    destruct (Wphone eq_refl eq_refl) as (_ & Wsms).
    destruct (Wsms annUser eq_refl eq_refl eq_refl)
      as (_ & Wstored & _ & Wbox & _ & Wexpiry & _).
    split; [exact Wbox|].
    rewrite Wstored. exact (f_equal Some Wexpiry).
Defined.

(** ** The further properties on the sample data *)

Lemma recovery_issues_for_any_account_witness :
  Auth.isBlocked bob = true /\ Auth.isVerified bob = false
  /\ outbox (snd (recovery (quiet 100) "b@x.com" bobOnly)) = [Email "b@x.com" "123456"].
Proof.
  split; [reflexivity|]. split; [reflexivity|].
  pose proof (recovery_issues_for_any_account (quiet 100) "b@x.com" bobOnly bob
                eq_refl eq_refl eq_refl) as W.
  cbv zeta in W. destruct W as (_ & _ & _ & _ & _ & Wbox). exact Wbox.
Defined.

Lemma rejected_save_is_not_forwarded_witness :
  fails (rejecting AuthSave 100) AuthSave = true
  /\ recovery (rejecting AuthSave 100) "a@x.com" annPending
     = (Rejected (StoreError AuthSave), annPending).
Proof.
  split; [reflexivity|].
  destruct (rejected_save_is_not_forwarded (rejecting AuthSave 100) eq_refl)
    as (Wrecovery & _ & _).
  exact (Wrecovery "a@x.com" annPending ann eq_refl eq_refl).
Defined.

Lemma recovery_then_recoveryVerify_witness :
  find (by_email "a@x.com") (auths annPending) = Some ann
  /\ fst (recoveryVerify (quiet 200) "a@x.com" "123456"
            (snd (recovery (quiet 100) "a@x.com" annPending)))
     = Responded OK (mkJson true "Email successfully verified." []).
Proof.
  split; [reflexivity|].
  assert (Hemail : "a@x.com" <> "") by discriminate.
  assert (Hotp : generateOTP (quiet 100) <> "") by discriminate.
  assert (Hnow : now (quiet 200) <= now (quiet 100) + 60 * 1000) by (simpl; lia).
  pose proof (recovery_then_recoveryVerify (quiet 100) "a@x.com" (quiet 200) (quiet 300)
                annPending ann Hemail Hotp eq_refl eq_refl eq_refl eq_refl eq_refl
                eq_refl Hnow) as W.
  cbv zeta in W. destruct W as (Wout & _). exact Wout.
Defined.

Lemma recovery_otp_expires_after_a_minute_witness :
  find (by_email "a@x.com") (auths annPending) = Some ann
  /\ fst (recoveryVerify (quiet 60101) "a@x.com" "123456"
            (snd (recovery (quiet 100) "a@x.com" annPending)))
     = Next (HttpError UNAUTHORIZED "Recovery OTP has expired.").
Proof.
  split; [reflexivity|].
  assert (Hemail : "a@x.com" <> "") by discriminate.
  assert (Hotp : generateOTP (quiet 100) <> "") by discriminate.
  assert (Hlate : now (quiet 100) + 60 * 1000 < now (quiet 60101)) by (simpl; lia).
  pose proof (recovery_otp_expires_after_a_minute "a@x.com" (quiet 100) (quiet 60101)
                annPending ann Hemail Hotp eq_refl eq_refl eq_refl eq_refl Hlate) as W.
  cbv zeta in W. destruct W as (_ & _ & Wout). exact (f_equal fst Wout).
Defined.

Lemma recoveryVerify_wrong_guesses_change_nothing_witness :
  Auth.recoveryOTP (reissueRecovery "123456" 60100 ann) = Some "123456"
  /\ after_guesses (fun e guess => recoveryVerify e "a@x.com" guess)
       [(quiet 100, "000000"); (quiet 200, "999999")] annRecovering
     = annRecovering.
Proof.
  split; [reflexivity|].
  assert (Hwrong : Forall (fun attempt =>
                             Auth.recoveryOTP (reissueRecovery "123456" 60100 ann)
                             <> Some (snd attempt))
                          [(quiet 100, "000000"); (quiet 200, "999999")]).
  { repeat constructor; discriminate. }
  exact (proj1 (recoveryVerify_wrong_guesses_change_nothing "a@x.com"
                  [(quiet 100, "000000"); (quiet 200, "999999")] annRecovering
                  (reissueRecovery "123456" 60100 ann) eq_refl Hwrong)).
Defined.

Lemma remove_is_not_atomic_witness :
  rejection authDeleteRejected AuthFindByIdAndDelete = Some unavailable
  /\ remove authDeleteRejected annDecoded annPending
     = (Next unavailable, mkWorld [ann] [] []).
Proof.
  split; [reflexivity|].
  destruct (remove_is_not_atomic authDeleteRejected annDecoded annPending unavailable)
    as (Wauth & _).
  exact (proj1 (Wauth eq_refl eq_refl)).
Defined.

Lemma remove_then_login_is_not_found_witness :
  find (by_id (authId annDecoded)) (auths annPending) = Some ann
  /\ fst (login (quiet 200) "a@x.com" "pw" (snd (remove noRejection annDecoded annPending)))
     = Next (HttpError NOT_FOUND "No account found with the given email").
Proof.
  split; [reflexivity|].
  assert (Hunique : NoDup (map Auth.email (auths annPending))).
  { repeat constructor. intros []. }
  pose proof (remove_then_login_is_not_found noRejection annDecoded (quiet 200) "pw"
                annPending ann eq_refl eq_refl Hunique eq_refl eq_refl) as W.
  cbv zeta in W. destruct W as (_ & Wlogin & _).
  exact (f_equal fst Wlogin).
Defined.

Lemma remove_of_a_missing_account_witness :
  find (by_id (authId annDecoded)) (auths nobody) = None
  /\ remove noRejection annDecoded nobody
     = (Responded OK (mkJson true "User Removed successfully" []), nobody).
Proof.
  split; [reflexivity|].
  exact (remove_of_a_missing_account noRejection annDecoded nobody
           eq_refl eq_refl eq_refl eq_refl).
Defined.

Lemma recovery_verify_route_runs_recovery_witness :
  In (mkRoute POST "/recovery-verify" None Recovery) authRouter
  /\ invoke (quiet 100) noRejection Recovery aRequest = recovery (quiet 100) "a@x.com".
Proof.
  split; [simpl; tauto|].
  destruct (recovery_verify_route_runs_recovery (quiet 100) noRejection aRequest)
    as (_ & Wroute & _).
  destruct (Wroute (mkRoute POST "/recovery-verify" None Recovery)) as (_ & _ & Winvoke).
  - simpl; tauto.
  - reflexivity.
  - exact Winvoke.
Defined.

Lemma register_existing_email_creates_nothing_witness :
  find (by_email "a@x.com") (auths annVerified) = Some (consumeVerification ann)
  /\ snd (register (quiet 100) "Eve" "a@x.com" None "other" "other" annVerified)
     = annVerified.
Proof.
  split; [reflexivity|].
  pose proof (register_existing_email_creates_nothing "Eve" "a@x.com" None "other" "other"
                (quiet 100) annVerified (consumeVerification ann) eq_refl) as W.
  cbv zeta in W. destruct W as (_ & _ & Wverified).
  exact (f_equal snd (Wverified eq_refl eq_refl)).
Defined.

Lemma activate_wrong_guesses_change_nothing_witness :
  Auth.verificationOTP ann = Some "111111"
  /\ after_guesses (fun e guess => activate e "a@x.com" guess)
       [(quiet 100, "000000"); (quiet 200, "999999")] annPending
     = annPending.
Proof.
  split; [reflexivity|].
  assert (Hwrong : Forall (fun attempt => Auth.verificationOTP ann <> Some (snd attempt))
                          [(quiet 100, "000000"); (quiet 200, "999999")]).
  { repeat constructor; discriminate. }
  exact (proj1 (activate_wrong_guesses_change_nothing "a@x.com"
                  [(quiet 100, "000000"); (quiet 200, "999999")] annPending ann
                  eq_refl Hwrong)).
Defined.

Lemma activate_verifies_before_it_can_fail_witness :
  JWT_ACCESS_SECRET (noSecret 100) = None
  /\ statusOf (fst (activate (noSecret 100) "a@x.com" "111111" annPending)) = Some 500
  /\ find (by_email "a@x.com")
          (auths (snd (activate (noSecret 100) "a@x.com" "111111" annPending)))
     = Some (consumeVerification ann).
Proof.
  split; [reflexivity|].
  assert (Hemail : "a@x.com" <> "") by discriminate.
  assert (Hotp : "111111" <> "") by discriminate.
  assert (Hnow : now (noSecret 100) <= 5000) by (simpl; lia).
  pose proof (activate_verifies_before_it_can_fail "a@x.com" (noSecret 100) "111111"
                annPending ann 5000 Hemail Hotp eq_refl eq_refl eq_refl eq_refl eq_refl
                Hnow) as W.
  cbv zeta in W. destruct W as (Wstored & Wsecret & _).
  split; [|exact Wstored].
  rewrite (Wsecret (or_introl eq_refl)). reflexivity.
Defined.

Lemma register_then_activate_witness :
  find (by_email "a@x.com") (auths nobody) = None
  /\ find (by_email "a@x.com")
          (auths (snd (activate (quiet 200) "a@x.com" "123456"
                         (snd (register (quiet 100) "Ann" "a@x.com" None "pw" "zz"
                                 nobody)))))
     = Some (consumeVerification (registeredAuth (quiet 100) "a@x.com" "pw")).
Proof.
  split; [reflexivity|].
  assert (Hemail : "a@x.com" <> "") by discriminate.
  assert (Hotp : generateOTP (quiet 100) <> "") by discriminate.
  assert (Hnow : now (quiet 200) <= now (quiet 100) + 30 * 60 * 1000) by (simpl; lia).
  pose proof (register_then_activate "Ann" "a@x.com" None "pw" "zz" (quiet 100) (quiet 200)
                nobody Hemail Hotp eq_refl eq_refl eq_refl eq_refl eq_refl eq_refl) as W.
  cbv zeta in W. destruct W as (Wintime & _).
  exact (proj1 (Wintime Hnow)).
Defined.

Lemma login_succeeds_exactly_when_witness :
  exists body, fst (login (quiet 100) "a@x.com" "pw" annVerified) = Responded OK body.
Proof.
  eexists.
  apply (proj2 (login_succeeds_exactly_when (quiet 100) "a@x.com" "pw" annVerified
                  OK _)).
  exists (consumeVerification ann), "spw", "A", "R".
  repeat split; discriminate.
Defined.

Lemma resendOTP_phone_without_user_witness :
  find (by_auth (Auth._id ann)) (users annAlone) = None
  /\ outbox (snd (resendOTP (quiet 100) phoneActivation "a@x.com" annAlone)) = []
  /\ find (by_email "a@x.com")
          (auths (snd (resendOTP (quiet 100) phoneActivation "a@x.com" annAlone)))
     = Some (reissueVerification "123456" 60100 ann).
Proof.
  split; [reflexivity|].
  pose proof (resendOTP_phone_without_user (quiet 100) "a@x.com" annAlone ann
                eq_refl eq_refl eq_refl eq_refl eq_refl eq_refl) as W.
  cbv zeta in W. destruct W as (_ & Wstored & Wbox).
  split; [exact Wbox|exact Wstored].
Defined.

Lemma reissue_retires_the_previous_otp_witness :
  Auth.verificationOTP ann = Some "111111"
  /\ exists error,
       fst (activate (quiet 200) "a@x.com" "111111"
              (snd (resendOTP (quiet 100) emailActivation "a@x.com" annPending)))
       = Next error.
Proof.
  split; [reflexivity|].
  assert (Hnew : generateOTP (quiet 100) <> "111111") by discriminate.
  pose proof (reissue_retires_the_previous_otp (quiet 100) "a@x.com" (quiet 200) "111111"
                "Ann" None "pw" "pw" annPending ann eq_refl eq_refl eq_refl eq_refl
                Hnew) as W.
  cbv zeta in W. destruct W as ((error & Wout) & _).
  exists error. exact (f_equal fst Wout).
Defined.

Lemma changePassword_then_login_witness :
  bcrypt_matches "pw" "spw" = true
  /\ login (quiet 200) "a@x.com" "pw"
       (snd (changePassword (quiet 100) annDecoded "pw" "new" "other" annPending))
     = (Next (HttpError UNAUTHORIZED "Wrong password"),
        snd (changePassword (quiet 100) annDecoded "pw" "new" "other" annPending)).
Proof.
  split; [reflexivity|].
  pose proof (changePassword_then_login (quiet 100) (quiet 200) annDecoded
                "pw" "new" "other" annPending ann "spw"
                eq_refl eq_refl eq_refl eq_refl eq_refl eq_refl eq_refl) as W.
  cbv zeta in W. destruct W as (_ & Wrefused & _).
  exact (Wrefused "pw" eq_refl).
Defined.

Lemma signInWithGoogle_again_creates_nothing_witness :
  fails (rejecting UserCreate 100) UserCreate = true
  /\ users (snd (signInWithGoogle (quiet 200) "g-cy" "Cy" "c@x.com" None
                   (snd (signInWithGoogle (rejecting UserCreate 100) "g-cy" "Cy"
                           "c@x.com" None nobody))))
     = [].
Proof.
  split; [reflexivity|].
  pose proof (signInWithGoogle_again_creates_nothing (rejecting UserCreate 100)
                (quiet 200) "g-cy" "Cy" "c@x.com" "Cy" "c@x.com" None None nobody
                eq_refl eq_refl eq_refl eq_refl) as W.
  cbv zeta in W. destruct W as (Wsame & Worphan & _).
  rewrite Wsame. exact (Worphan eq_refl).
Defined.

Lemma handlers_keep_identities_witness :
  paired (snd (invoke (quiet 100) noRejection Activate aRequest annAlone))
  = paired annAlone.
Proof.
  assert (H1 : Activate <> Register) by discriminate.
  assert (H2 : Activate <> SignInWithGoogle) by discriminate.
  assert (H3 : Activate <> Remove) by discriminate.
  pose proof (handlers_keep_identities (quiet 100) noRejection aRequest Activate
                annAlone H1 H2 H3) as W.
  cbv zeta in W. destruct W as (_ & _ & Wpaired). exact Wpaired.
Defined.

Lemma resendOTP_recovers_like_recovery_witness :
  snd (resendOTP (quiet 100) emailRecovery "a@x.com" annPending) = annRecovering.
Proof.
  destruct (resendOTP_recovers_like_recovery (quiet 100) "a@x.com" annPending)
    as (Wworld & _).
  rewrite Wworld. reflexivity.
Defined.
